(** * go-syncstorage: the HTTP surface of [api/api.go], the start-up code of
    [main.go], and the timestamp and record-update contracts of the
    [syncstorage] package.

    The handlers of [api.go] are embedded as functions over an abstract
    [http.ResponseWriter] (a type class, as the Go interface is), with
    [httptest.ResponseRecorder] as the concrete writer.  Routing follows
    gorilla/mux: an ordered table of routes, path templates matched segment by
    segment, the first match wins. *)

From Stdlib Require Import ZArith String Ascii List Lia Bool.
From Stdlib Require Import Decimal DecimalString DecimalZ DecimalFacts.
From stdpp Require Import base gmap strings list.

Local Open Scope Z_scope.
#[local] Set Warnings "-register-all".

(* ===================================================================== *)
(** ** net/http and net/http/httptest *)
(* ===================================================================== *)

Module http.

Definition StatusOK : Z := 200.
Definition StatusMovedPermanently : Z := 301.
Definition StatusBadRequest : Z := 400.
Definition StatusNotFound : Z := 404.
Definition StatusInternalServerError : Z := 500.
Definition StatusNotImplemented : Z := 501.

(** [http.StatusText], on the codes this program uses. *)
Definition StatusText (code : Z) : string :=
  if code =? 200 then "OK"
  else if code =? 301 then "Moved Permanently"
  else if code =? 400 then "Bad Request"
  else if code =? 404 then "Not Found"
  else if code =? 500 then "Internal Server Error"
  else if code =? 501 then "Not Implemented"
  else "".

(** The interface [http.ResponseWriter]: [w.Header().Set(k, v)],
    [w.WriteHeader(code)] and [w.Write(bytes)]. *)
Class ResponseWriter (W : Type) := {
  HeaderSet : string -> string -> W -> W;
  WriteHeader : Z -> W -> W;
  Write : string -> W -> W
}.


(** An incoming request: method, [URL.Path], [URL.RawQuery], the request
    headers, and the path variables gorilla/mux attaches to the request
    ([mux.Vars]). *)
Record Request := mkRequest {
  Method : string;
  Path : string;
  RawQuery : string;
  Header : gmap string string;
  Vars : gmap string string
}.

Definition withVars (vars : gmap string string) (r : Request) : Request :=
  {| Method := Method r; Path := Path r; RawQuery := RawQuery r;
     Header := Header r; Vars := vars |}.

Definition NewRequest (method urlPath : string) : Request :=
  {| Method := method; Path := urlPath; RawQuery := "";
     Header := ∅; Vars := ∅ |}.


Section Writers.
Context {W : Type} `{ResponseWriter W}.

(** [fmt.Fprint(w, s)] and [fmt.Fprintln(w, s)]. *)
Definition Fprint (s : string) (w : W) : W := Write s w.

Definition Fprintln (s : string) (w : W) : W :=
  Write (s +:+ String (ascii_of_nat 10) "") w.

(** [http.Error]: plain-text content type, the status line, then the message
    followed by a newline. *)
Definition Error (w : W) (msg : string) (code : Z) : W :=
  let w := HeaderSet "Content-Type" "text/plain; charset=utf-8" w in
  let w := HeaderSet "X-Content-Type-Options" "nosniff" w in
  let w := WriteHeader code w in
  Fprintln msg w.

(** [http.NotFound], the handler behind [http.NotFoundHandler()]. *)
Definition NotFound (w : W) (r : Request) : W :=
  Error w "404 page not found" StatusNotFound.

End Writers.

(** [http.HandlerFunc]. *)
Definition HandlerFunc (W : Type) : Type := W -> Request -> W.

End http.

Module httptest.

(** [httptest.ResponseRecorder].  [HeaderMap] is the live header map that
    handlers mutate; [snapHeader] is the copy taken when the status line goes
    out, which is what a client receives.  The first [WriteHeader] wins; a
    [Write] before any [WriteHeader] sends 200 first.  (Content sniffing on a
    [Write] without Content-Type is left out: every writer of this program
    sets the content type before its first write.) *)
Record ResponseRecorder := mkRecorder {
  Code : Z;
  HeaderMap : gmap string string;
  Body : string;
  wroteHeader : bool;
  snapHeader : gmap string string
}.

Definition NewRecorder : ResponseRecorder :=
  {| Code := 200; HeaderMap := ∅; Body := ""; wroteHeader := false;
     snapHeader := ∅ |}.

Definition rec_HeaderSet (k v : string) (rw : ResponseRecorder) : ResponseRecorder :=
  {| Code := Code rw; HeaderMap := <[k := v]> (HeaderMap rw); Body := Body rw;
     wroteHeader := wroteHeader rw; snapHeader := snapHeader rw |}.

Definition rec_WriteHeader (code : Z) (rw : ResponseRecorder) : ResponseRecorder :=
  if wroteHeader rw then rw
  else {| Code := code; HeaderMap := HeaderMap rw; Body := Body rw;
          wroteHeader := true; snapHeader := HeaderMap rw |}.

Definition rec_Write (s : string) (rw : ResponseRecorder) : ResponseRecorder :=
  let rw := rec_WriteHeader 200 rw in
  {| Code := Code rw; HeaderMap := HeaderMap rw; Body := Body rw +:+ s;
     wroteHeader := wroteHeader rw; snapHeader := snapHeader rw |}.

#[export] Instance recorder_writer : http.ResponseWriter ResponseRecorder := {
  http.HeaderSet := rec_HeaderSet;
  http.WriteHeader := rec_WriteHeader;
  http.Write := rec_Write
}.

(** The headers of the response as sent ([ResponseRecorder.Result]). *)
Definition ResultHeader (rw : ResponseRecorder) : gmap string string :=
  if wroteHeader rw then snapHeader rw else HeaderMap rw.

End httptest.

(* ===================================================================== *)
(** ** github.com/gorilla/mux *)
(* ===================================================================== *)

Module mux.
Import http.

Definition slash : ascii := ascii_of_nat 47.

(** [strings.Split(s, sep)] for a one-character separator. *)
Fixpoint split_on (sep : ascii) (s : string) : list string :=
  match s with
  | EmptyString => [EmptyString]
  | String c rest =>
      if Ascii.eqb c sep then EmptyString :: split_on sep rest
      else match split_on sep rest with
           | [] => [String c EmptyString]
           | x :: xs => String c x :: xs
           end
  end.

(** A character other than the separator. *)
Definition other_than (sep c : ascii) : bool := negb (Ascii.eqb c sep).

Fixpoint join_with (sep : ascii) (l : list string) : string :=
  match l with
  | [] => EmptyString
  | [x] => x
  | x :: rest => x +:+ String sep (join_with sep rest)
  end.

Fixpoint string_forallb (p : ascii -> bool) (s : string) : bool :=
  match s with
  | EmptyString => true
  | String c rest => p c && string_forallb p rest
  end.

Definition is_digit (c : ascii) : bool :=
  let n := nat_of_ascii c in (48 <=? n)%nat && (n <=? 57)%nat.

Definition nonempty (s : string) : bool :=
  match s with EmptyString => false | _ => true end.

Fixpoint last_char (s : string) : option ascii :=
  match s with
  | EmptyString => None
  | String c EmptyString => Some c
  | String _ rest => last_char rest
  end.

Fixpoint drop_last (s : string) : string :=
  match s with
  | EmptyString => EmptyString
  | String c EmptyString => EmptyString
  | String c rest => String c (drop_last rest)
  end.

(** [strings.TrimRight(s, "/")]. *)
Fixpoint trim_right_slash (s : string) : string :=
  match s with
  | EmptyString => EmptyString
  | String c rest =>
      match trim_right_slash rest with
      | EmptyString => if Ascii.eqb c slash then EmptyString else String c EmptyString
      | t => String c t
      end
  end.

(** *** Path cleaning ([cleanPath], over [path.Clean]) *)

(** [path.Clean] on a rooted path: empty and "." elements are dropped, ".."
    removes the element before it (and is dropped at the root). *)
Fixpoint clean_segments (stack : list string) (segs : list string) : list string :=
  match segs with
  | [] => rev stack
  | seg :: rest =>
      if String.eqb seg "" || String.eqb seg "." then clean_segments stack rest
      else if String.eqb seg ".." then clean_segments (tl stack) rest
      else clean_segments (seg :: stack) rest
  end.

Definition path_Clean (p : string) : string :=
  String slash (join_with slash (clean_segments [] (split_on slash p))).

Definition cleanPath (p : string) : string :=
  match p with
  | EmptyString => "/"
  | String c _ =>
      let p := if Ascii.eqb c slash then p else String slash p in
      let np := path_Clean p in
      match last_char p with
      | Some l => if Ascii.eqb l slash && negb (String.eqb np "/")
                  then np +:+ "/" else np
      | None => np
      end
  end.

(** *** Path templates *)

(** A template is split at the slashes; an element is a literal or a
    variable [{name}] / [{name:pattern}]. *)
Inductive segment :=
| SegLit (s : string)
| SegVar (name pattern : string).

Definition default_pattern : string := "[^/]+".

Definition parse_segment (s : string) : segment :=
  match s with
  | String "{" rest =>
      match split_on ":" (drop_last rest) with
      | [name] => SegVar name default_pattern
      | name :: pats => SegVar name (join_with ":" pats)
      | [] => SegLit s
      end
  | _ => SegLit s
  end.

Definition parse_template (tpl : string) : list segment :=
  map parse_segment (split_on slash tpl).

(** The two variable patterns of this router, on one path element. *)
Definition pattern_matches (pattern seg : string) : bool :=
  if String.eqb pattern "[0-9]+" then nonempty seg && string_forallb is_digit seg
  else if String.eqb pattern default_pattern then nonempty seg
  else false.

Definition segment_matches (t : segment) (seg : string) : bool :=
  match t with
  | SegLit l => String.eqb l seg
  | SegVar _ pattern => pattern_matches pattern seg
  end.

(** Anchored match of a whole path ([^template$]). *)
Fixpoint segments_match (ts : list segment) (segs : list string) : bool :=
  match ts, segs with
  | [], [] => true
  | t :: ts', seg :: segs' => segment_matches t seg && segments_match ts' segs'
  | _, _ => false
  end.

(** Some non-empty beginning of the element matches the pattern. *)
Definition pattern_matches_prefix (pattern seg : string) : bool :=
  match seg with
  | EmptyString => false
  | String c _ =>
      if String.eqb pattern "[0-9]+" then is_digit c
      else String.eqb pattern default_pattern
  end.

(** Match of a path prefix ([^template], no end anchor). *)
Fixpoint segments_match_prefix (ts : list segment) (segs : list string) : bool :=
  match ts, segs with
  | [], _ => true
  | [SegLit l], seg :: _ => String.prefix l seg
  | [SegVar _ pattern], seg :: _ => pattern_matches_prefix pattern seg
  | t :: ts', seg :: segs' => segment_matches t seg && segments_match_prefix ts' segs'
  | _ :: _, [] => false
  end.

Definition path_matches (tpl p : string) : bool :=
  segments_match (parse_template tpl) (split_on slash p).

Definition prefix_matches (tpl p : string) : bool :=
  segments_match_prefix (parse_template tpl) (split_on slash p).

Fixpoint extract_vars (ts : list segment) (segs : list string) : gmap string string :=
  match ts, segs with
  | SegVar name _ :: ts', seg :: segs' => <[name := seg]> (extract_vars ts' segs')
  | _ :: ts', _ :: segs' => extract_vars ts' segs'
  | _, _ => ∅
  end.

Definition path_vars (tpl p : string) : gmap string string :=
  extract_vars (parse_template tpl) (split_on slash p).

(** *** Routes *)

(** A route is a handler behind a full path template and a method list
    (empty: every method), or a subrouter behind a path prefix.  The template
    of a route registered on a subrouter is the prefix, its trailing slashes
    trimmed, followed by the route's own template ([sub]). *)
Inductive Route (W : Type) :=
| Handle (tpl : string) (methods : list string) (h : HandlerFunc W)
| Subrouter (prefix : string) (routes : list (Route W)).
Arguments Handle {W} tpl methods h.
Arguments Subrouter {W} prefix routes.

Definition sub (prefix tpl : string) : string :=
  trim_right_slash prefix +:+ tpl.

Definition method_matches (methods : list string) (m : string) : bool :=
  match methods with
  | [] => true
  | _ => existsb (String.eqb m) methods
  end.

Section Matching.
Context {W : Type}.

(** [Router.Match]: the routes in registration order, depth first.  A
    route whose path matches but whose method list does not is no match, so
    such a request falls through to the not-found handler. *)
Fixpoint match_route (r : Route W) (req : Request)
  : option (HandlerFunc W * gmap string string) :=
  match r with
  | Handle tpl methods h =>
      if path_matches tpl (Path req) && method_matches methods (Method req)
      then Some (h, path_vars tpl (Path req))
      else None
  | Subrouter prefix routes =>
      if prefix_matches prefix (Path req) then
        (fix first (rs : list (Route W)) :=
           match rs with
           | [] => None
           | r' :: rs' =>
               match match_route r' req with
               | Some m => Some m
               | None => first rs'
               end
           end) routes
      else None
  end.

Fixpoint Match (routes : list (Route W)) (req : Request)
  : option (HandlerFunc W * gmap string string) :=
  match routes with
  | [] => None
  | r :: rest =>
      match match_route r req with
      | Some m => Some m
      | None => Match rest req
      end
  end.

Context `{ResponseWriter W}.

(** [Router.ServeHTTP]: a path that is not in canonical form is answered
    with a redirect to the cleaned path; otherwise the matched handler runs
    with the path variables set, and [http.NotFoundHandler()] runs when no
    route matches (this router sets no [NotFoundHandler] of its own). *)
Definition ServeHTTP (routes : list (Route W)) (w : W) (req : Request) : W :=
  let p := cleanPath (Path req) in
  if negb (String.eqb p (Path req)) then
    let url := if String.eqb (RawQuery req) "" then p
               else p +:+ "?" +:+ RawQuery req in
    WriteHeader StatusMovedPermanently (HeaderSet "Location" url w)
  else
    match Match routes req with
    | Some (h, vars) => h w (withVars vars req)
    | None => NotFound w req
    end.

End Matching.

End mux.

(* ===================================================================== *)
(** ** encoding/json and the part of [syncstorage] that [api.go] calls *)
(* ===================================================================== *)

(** Go's [error] values, as produced by [errors.New]. *)
Inductive error := errors_New (msg : string).

Module json.

(** [json.Marshal] at a value type: the encoded bytes, or an error. *)
Class Marshaler (V : Type) := { Marshal : V -> string + error }.

End json.

Module syncstorage.

(** Modelled from the spec: [ErrNotFound] of the error taxonomy, the
    sentinel the callers compare against; its message is not used. *)
Definition ErrNotFound : error := errors_New "Not Found".

(** The two [*syncstorage.Dispatch] methods the handlers of [api.go] call.
    The package itself is outside this development: its result types are
    parameters, and a call returns a value or an error. *)
Record Dispatch (Info Usage : Type) := {
  InfoCollections : string -> Info + error;
  InfoCollectionUsage : string -> Usage + error
}.
Arguments InfoCollections {Info Usage} d uid.
Arguments InfoCollectionUsage {Info Usage} d uid.

End syncstorage.

(* ===================================================================== *)
(** ** api/api.go *)
(* ===================================================================== *)

Module api.
Import http mux.

Section Handlers.
Context {Info Usage : Type}.
Context `{MI : json.Marshaler Info} `{MU : json.Marshaler Usage}.

(** [Dependencies] holds run time created resources for handlers to use. *)
Record Dependencies := { Dispatch : syncstorage.Dispatch Info Usage }.

Context {W : Type} `{RW : ResponseWriter W}.

Definition syncHandler : Type := W -> Request -> Dependencies -> string -> W.

(** [makeSyncHandler]: the uid is read from the path variables; when it is
    missing a 400 is written, and the handler is called all the same, with
    the zero value of [uid]. *)
Definition makeSyncHandler (d : Dependencies) (h : syncHandler) : HandlerFunc W :=
  fun w r =>
    let vars := Vars r in
    match vars !! "uid" with
    | Some uid => h w r d uid
    | None =>
        let w := Error w "UID missing" StatusBadRequest in
        h w r d ""
    end.

Definition notImplemented : syncHandler :=
  fun w r d uid => Error w "Not implemented" StatusNotImplemented.

(** [okResponse] writes a 200 response with a simple string body. *)
Definition okResponse (w : W) (s : string) : W :=
  let w := HeaderSet "Content-Type" "text/plain; charset=utf-8" w in
  let w := HeaderSet "X-Content-Type-Options" "nosniff" w in
  let w := WriteHeader StatusOK w in
  Fprint s w.

(** [errorResponse] writes an error to the HTTP response; [err] is not
    used. *)
Definition errorResponse (w : W) (r : Request) (d : Dependencies) (err : error) : W :=
  Error w (StatusText StatusInternalServerError) StatusInternalServerError.

(** [jsonResponse] marshals a value into JSON, and answers with an error
    response if that fails. *)
Definition jsonResponse {V : Type} `{json.Marshaler V}
  (w : W) (r : Request) (d : Dependencies) (val : V) : W :=
  match json.Marshal val with
  | inr err => errorResponse w r d err
  | inl js =>
      let w := HeaderSet "Content-Type" "application/json" w in
      Write js w
  end.

Definition handleHeartbeat (w : W) (r : Request) (d : Dependencies) : W :=
  okResponse w "OK".

Definition handleUIDecho : syncHandler :=
  fun w r d uid => okResponse w uid.

Definition handleInfoCollections : syncHandler :=
  fun w r d uid =>
    match syncstorage.InfoCollections (Dispatch d) uid with
    | inr err => errorResponse w r d err
    | inl info => jsonResponse w r d info
    end.

Definition handleInfoCollectionUsage : syncHandler :=
  fun w r d uid =>
    match syncstorage.InfoCollectionUsage (Dispatch d) uid with
    | inr err => errorResponse w r d err
    | inl results => jsonResponse w r d results
    end.

(** [NewRouter] creates a router with http handlers for the syncstorage
    API.  [v], [info] and [storage] are the path prefixes of the three
    subrouters. *)
Definition NewRouter (d : Dependencies) : list (Route W) :=
  let v := "/1.5/{uid:[0-9]+}/" in
  let info := sub v "/info/" in
  let storage := sub v "/storage/" in
  [ Handle "/__heartbeat__" [] (fun w r => handleHeartbeat w r d);
    Handle "/" ["DELETE"] (makeSyncHandler d notImplemented);
    Subrouter v
      [ Handle (sub v "/echo-uid") ["GET"] (makeSyncHandler d handleUIDecho);
        Subrouter info
          [ Handle (sub info "/collections") ["GET"] (makeSyncHandler d handleInfoCollections);
            Handle (sub info "/quota") ["GET"] (makeSyncHandler d notImplemented);
            Handle (sub info "/collection_usage") ["GET"] (makeSyncHandler d handleInfoCollectionUsage);
            Handle (sub info "/collection_counts") ["GET"] (makeSyncHandler d notImplemented) ];
        Subrouter storage
          [ Handle (sub storage "/") ["DELETE"] (makeSyncHandler d notImplemented);
            Handle (sub storage "/{collection}") ["GET"] (makeSyncHandler d notImplemented);
            Handle (sub storage "/{collection}") ["POST"] (makeSyncHandler d notImplemented);
            Handle (sub storage "/{collection}") ["DELETE"] (makeSyncHandler d notImplemented);
            Handle (sub storage "/{collection}/{bsoId}") ["GET"] (makeSyncHandler d notImplemented);
            Handle (sub storage "/{collection}/{bsoId}") ["PUT"] (makeSyncHandler d notImplemented);
            Handle (sub storage "/{collection}/{bsoId}") ["DELETE"] (makeSyncHandler d notImplemented) ] ] ].

End Handlers.
Arguments Dependencies Info Usage : clear implicits.

End api.

(** *** Counting the calls of the inner handler

    A writer paired with the log of the uids the wrapped handler has been
    called with; the writer operations go to the underlying writer. *)
Module probe.
Import http api.

Record Probe (W : Type) := mkProbe { writer : W; calls : list string }.
Arguments mkProbe {W} writer calls.
Arguments writer {W} p.
Arguments calls {W} p.

Definition lift {W : Type} (f : W -> W) (p : Probe W) : Probe W :=
  {| writer := f (writer p); calls := calls p |}.

#[export] Instance probe_writer {W : Type} `{ResponseWriter W}
  : ResponseWriter (Probe W) := {
  HeaderSet k v := lift (HeaderSet k v);
  WriteHeader code := lift (WriteHeader code);
  Write s := lift (Write s)
}.

(** The handler [h], recording each call. *)
Definition logged {Info Usage W : Type} (h : @syncHandler Info Usage W)
  : @syncHandler Info Usage (Probe W) :=
  fun p r d uid => {| writer := h (writer p) r d uid; calls := calls p ++ [uid] |}.

End probe.

(* ===================================================================== *)
(** ** main.go *)
(* ===================================================================== *)

Module main.

(** The conversion [uint16(x)] of a Go [int]: the low 16 bits. *)
Definition uint16 (x : Z) : Z := x mod 65536.

(** The values of package [config] that [main] reads.  The package is not
    part of this development; [MaxOpenFiles] is taken as a Go [int]. *)
Record config := { MaxOpenFiles : Z; DataDir : string; Port : Z }.

(** The arguments [main] passes to [syncstorage.NewDispatch] (the path
    strategy, always [TwoLevelPath], is left out). *)
Record NewDispatchArgs := { arg_numPools : Z; arg_basepath : string; arg_cacheSize : Z }.

Definition numPools : Z := uint16 8.

Definition cacheSize (cfg : config) : Z := uint16 (MaxOpenFiles cfg) / numPools.

Definition main_NewDispatch (cfg : config) : NewDispatchArgs :=
  {| arg_numPools := numPools; arg_basepath := DataDir cfg;
     arg_cacheSize := cacheSize cfg |}.

End main.

(* ===================================================================== *)
(** ** Package [syncstorage]: timestamps on the wire *)
(* ===================================================================== *)

Module timestamp.
Import mux.

Definition dot : ascii := ascii_of_nat 46.

(** Modelled from the spec: [%d] of the format string of
    [ModifiedToString], a decimal numeral with a minus sign for negative
    numbers. *)
Definition fmt_d (z : Z) : string := NilZero.string_of_int (Z.to_int z).

(** Modelled from the spec: [%02d] of the format string of
    [ModifiedToString], the numeral padded with a zero up to width two. *)
Definition fmt_02d (z : Z) : string :=
  let s := fmt_d z in
  if (String.length s <? 2)%nat then "0" +:+ s else s.

(** Modelled from the spec: the format helper of the Timestamp service,
    [ModifiedToString(n) = fmt("%d.%02d", n/100, n%100)], with Go's
    truncating [/] and [%].  The function lives in package [syncstorage],
    which this development only sees through its callers. *)
Definition ModifiedToString (n : Z) : string :=
  fmt_d (Z.quot n 100) +:+ String dot (fmt_02d (Z.rem n 100)).

(** Modelled from the spec: the numeric input the parser accepts, an
    unsigned decimal numeral (one digit at least, digits only). *)
Definition parse_uint (s : string) : option Z :=
  Z.of_uint <$> NilZero.uint_of_string s.

(** Modelled from the spec: the fraction of the wire format, at most two
    decimals: one digit (tenths) or two (hundredths). *)
Definition parse_hundredths (s : string) : option Z :=
  match s with
  | String _ EmptyString => (fun d => 10 * d) <$> parse_uint s
  | String _ (String _ EmptyString) => parse_uint s
  | _ => None
  end.

(** Modelled from the spec: the parser of the wire format [seconds.hh],
    which rejects negative values and non-numeric input.  It reads an
    unsigned number of seconds with at most two decimals and returns
    hundredths of a second; everything else is rejected.  The function
    lives in package [syncstorage], outside this development. *)
Definition ParseTimestamp (s : string) : option Z :=
  match split_on dot s with
  | [secs] => (fun v => 100 * v) <$> parse_uint secs
  | [secs; frac] =>
      match parse_uint secs, parse_hundredths frac with
      | Some v, Some f => Some (100 * v + f)
      | _, _ => None
      end
  | _ => None
  end.

(** Modelled from the spec: the seconds of a legal timestamp string, what
    [%d] prints for a non-negative number, that is ["0"], or digits that do
    not start with a zero. *)
Definition canonical_seconds (s : string) : bool :=
  match s with
  | EmptyString => false
  | String c rest =>
      if Ascii.eqb c "0" then String.eqb rest "" else string_forallb is_digit s
  end.

(** Modelled from the spec: a legal timestamp string of the wire format
    [seconds.hh], canonical seconds, a dot, exactly two digits. *)
Definition legal_timestamp (s : string) : bool :=
  match split_on dot s with
  | [secs; String c1 (String c2 EmptyString)] =>
      canonical_seconds secs && is_digit c1 && is_digit c2
  | _ => false
  end.

Definition numeric_char (c : ascii) : bool := is_digit c || Ascii.eqb c dot.

Definition two_digits (s : string) : bool :=
  match s with
  | String c1 (String c2 EmptyString) => is_digit c1 && is_digit c2
  | _ => false
  end.

End timestamp.

(* ===================================================================== *)
(** ** Package [syncstorage]: record updates of the per-user store *)
(* ===================================================================== *)

Module store.
Import mux.

Definition MAX_BSO_PAYLOAD_SIZE : Z := 262144.

(** Modelled from the spec: a stored record (section 3).  [modified] and
    [ttl] are in hundredths of a second, [ttl] is the absolute expiry. *)
Record BSO := mkBSO {
  Payload : string;
  SortIndex : option Z;
  Modified : Z;
  TTL : option Z
}.

(** Modelled from the spec: one input of a write (section 4.1.2).  An
    absent field is [None]; for the sort index [Some None] is the JSON [null]
    (clear) and [Some (Some i)] a value; the [ttl] is in seconds from now. *)
Record PutBSOInput := mkInput {
  Id : string;
  in_Payload : option string;
  in_SortIndex : option (option Z);
  in_TTL : option Z
}.

Inductive StoreError :=
| ErrInvalidBSOID
| ErrInvalidSortIndex
| ErrPayloadTooLarge
| ErrInvalidTTL.

(** Modelled from the spec: the store of one user, the modified time of
    each collection and the records by collection id and record id. *)
Record Store := mkStore {
  collections : gmap Z Z;
  bsos : gmap (Z * string) BSO
}.

Definition bsoid_char (c : ascii) : bool :=
  let n := nat_of_ascii c in
  ((65 <=? n) && (n <=? 90) || (97 <=? n) && (n <=? 122) || (48 <=? n) && (n <=? 57)
   || (n =? 46) || (n =? 95) || (n =? 45))%nat.

(** [^[A-Za-z0-9._-]{1,64}$] *)
Definition valid_bsoid (bid : string) : bool :=
  (1 <=? String.length bid)%nat && (String.length bid <=? 64)%nat
  && string_forallb bsoid_char bid.

(** Modelled from the spec: the validation at the boundary of the store
    (section 4.6): record id syntax, payload size, sort index range, ttl. *)
Definition validate (bid : string) (payload : option string)
  (sortindex : option (option Z)) (ttl : option Z) : option StoreError :=
  if negb (valid_bsoid bid) then Some ErrInvalidBSOID
  else if match payload with
          | Some p => MAX_BSO_PAYLOAD_SIZE <? Z.of_nat (String.length p)
          | None => false
          end then Some ErrPayloadTooLarge
  else if match sortindex with
          | Some (Some i) => 999999999 <? Z.abs i
          | _ => false
          end then Some ErrInvalidSortIndex
  else if match ttl with Some t => t <? 0 | None => false end then Some ErrInvalidTTL
  else None.

(** Modelled from the spec: a record whose [ttl] lies before [now] is
    treated as not present (section 3, invariant 3). *)
Definition visible (now : Z) (b : BSO) : bool :=
  match TTL b with
  | Some t => now <=? t
  | None => true
  end.

(** Modelled from the spec: [GetBSO(cid, bid)], which does not see expired
    records. *)
Definition GetBSO (s : Store) (now cid : Z) (bid : string) : option BSO :=
  match bsos s !! (cid, bid) with
  | Some b => if visible now b then Some b else None
  | None => None
  end.

(** Modelled from the spec: the record after a write.  The fields given in
    the input replace the stored ones, the others stay; a new record starts
    empty; the ttl becomes [now + ttl*100]. *)
Definition written (now : Z) (old : option BSO) (payload : option string)
  (sortindex : option (option Z)) (ttl : option Z) : BSO :=
  let base := default {| Payload := ""; SortIndex := None; Modified := now; TTL := None |} old in
  {| Payload := default (Payload base) payload;
     SortIndex := default (SortIndex base) sortindex;
     Modified := now;
     TTL := match ttl with
            | Some t => Some (now + t * 100)
            | None => TTL base
            end |}.

(** Modelled from the spec: [PutBSO(cid, bid, payload?, sortindex?, ttl?)]
    creates or updates; a field absent in the input is left unchanged on
    update; the record and its collection take the timestamp [now] of the
    call, which is returned.  The function lives in package [syncstorage],
    which this development only sees through its callers. *)
Definition PutBSO (s : Store) (now cid : Z) (bid : string) (payload : option string)
  (sortindex : option (option Z)) (ttl : option Z) : Store * Z + StoreError :=
  match validate bid payload sortindex ttl with
  | Some e => inr e
  | None =>
      let b := written now (GetBSO s now cid bid) payload sortindex ttl in
      inl ({| collections := <[cid := now]> (collections s);
              bsos := <[(cid, bid) := b]> (bsos s) |}, now)
  end.

Record PostResults := mkResults {
  Success : list string;
  Failed : gmap string (list string)
}.

Definition reason (e : StoreError) : string :=
  match e with
  | ErrInvalidBSOID => "id"
  | ErrInvalidSortIndex => "sortindex"
  | ErrPayloadTooLarge => "payload"
  | ErrInvalidTTL => "ttl"
  end.

(** Modelled from the spec: [PostBSOs(cid, inputs)], the batched put.  Each
    input is validated on its own; the valid ones are written, all with the
    one timestamp of the call, and the others are reported by id. *)
Fixpoint PostBSOs_from (s : Store) (res : PostResults) (now cid : Z)
  (inputs : list PutBSOInput) : Store * PostResults :=
  match inputs with
  | [] => (s, res)
  | i :: rest =>
      match PutBSO s now cid (Id i) (in_Payload i) (in_SortIndex i) (in_TTL i) with
      | inl (s', _) =>
          PostBSOs_from s' {| Success := Success res ++ [Id i]; Failed := Failed res |}
            now cid rest
      | inr e =>
          PostBSOs_from s {| Success := Success res;
                             Failed := <[Id i := [reason e]]> (Failed res) |}
            now cid rest
      end
  end.

Definition PostBSOs (s : Store) (now cid : Z) (inputs : list PutBSOInput)
  : Store * PostResults :=
  PostBSOs_from s {| Success := []; Failed := ∅ |} now cid inputs.

End store.

(* ===================================================================== *)
(** ** Vocabulary of the statements *)
(* ===================================================================== *)

Module facts.
Import http httptest mux api.

(** The header [k] is neither in the live header map nor in the headers
    sent. *)
Definition lacks (k : string) (rw : ResponseRecorder) : Prop :=
  HeaderMap rw !! k = None /\ snapHeader rw !! k = None.

(** The header names that [api.go], [http.Error] and the router's redirect
    write. *)
Definition written_headers : list string :=
  ["Content-Type"; "X-Content-Type-Options"; "Location"].

Definition foreign (k : string) : Prop := ~ In k written_headers.

(** A handler that keeps the header [k] absent. *)
Definition quiet (k : string) (h : HandlerFunc ResponseRecorder) : Prop :=
  forall rw r, lacks k rw -> lacks k (h rw r).

(** A numeric uid, as the routes under [/1.5/{uid:[0-9]+}/] take it: not
    empty, digits only. *)
Definition numeric (uid : string) : bool :=
  nonempty uid && string_forallb is_digit uid.

(** A plain path element: not empty, no slash, and neither "." nor "..". *)
Definition plain (seg : string) : bool :=
  nonempty seg && string_forallb (other_than slash) seg
  && negb (String.eqb seg ".") && negb (String.eqb seg "..").

(** The path with the given elements: [path_of ["a"; "b"]] is "/a/b". *)
Definition path_of (segs : list string) : string :=
  String slash (join_with slash segs).

(** All handlers registered below a route. *)
Fixpoint handlers_of {W : Type} (r : Route W) : list (HandlerFunc W) :=
  match r with
  | Handle _ _ h => [h]
  | Subrouter _ routes => flat_map handlers_of routes
  end.

(** A dispatch for which every call fails with [e]. *)
Definition failing (e : error) : syncstorage.Dispatch unit unit :=
  {| syncstorage.InfoCollections := fun _ => inr e;
     syncstorage.InfoCollectionUsage := fun _ => inr e |}.

#[export] Instance marshal_unit : json.Marshaler unit :=
  {| json.Marshal := fun _ => inl "{}" |}.

Definition failing_deps (e : error) : Dependencies unit unit :=
  {| Dispatch := failing e |}.

Definition newline : string := String (ascii_of_nat 10) "".

(** The three records of the POST tests, and the store that holds them
    after a first batch at time 1000 into collection 1. *)
Definition initial_inputs : list store.PutBSOInput :=
  map (fun bid => store.mkInput bid (Some "initial payload") (Some (Some 1)) (Some 2100000))
      ["bso1"; "bso2"; "bso3"].

Definition stored : store.Store :=
  fst (store.PostBSOs (store.mkStore ∅ ∅) 1000 1 initial_inputs).

(** The response [http.Error] leaves in a fresh recorder. *)
Definition error_response (msg : string) (code : Z) : ResponseRecorder :=
  let h : gmap string string :=
    <["X-Content-Type-Options" := "nosniff"]>
      (<["Content-Type" := "text/plain; charset=utf-8"]> ∅) in
  {| Code := code; HeaderMap := h; Body := msg +:+ newline;
     wroteHeader := true; snapHeader := h |}.

End facts.

(* ===================================================================== *)
(** ** The route table and the shapes of the responses *)
(* ===================================================================== *)

Module table.
Import http httptest mux api facts.

(** The routes below a route that carry a handler: template, methods,
    handler, in registration order. *)
Fixpoint leaves {W : Type} (r : Route W) : list (string * list string * HandlerFunc W) :=
  match r with
  | Handle tpl methods h => [(tpl, methods, h)]
  | Subrouter _ routes => flat_map leaves routes
  end.

(** The templates and methods [NewRouter] registers, in order. *)
Definition route_table : list (string * list string) :=
  map (fun l => (fst (fst l), snd (fst l)))
      (flat_map leaves (NewRouter (W:=ResponseRecorder) (failing_deps syncstorage.ErrNotFound))).

(** The entry matches the request: its path and its method. *)
Definition entry_matches (req : Request) (e : string * list string) : bool :=
  path_matches (fst e) (Path req) && method_matches (snd e) (Method req).

(** Two template elements that one path element can match. *)
Definition segment_compatible (t1 t2 : segment) : bool :=
  match t1, t2 with
  | SegLit a, SegLit b => String.eqb a b
  | SegLit a, SegVar _ p => pattern_matches p a
  | SegVar _ p, SegLit b => pattern_matches p b
  | SegVar _ _, SegVar _ _ => true
  end.

Fixpoint segments_compatible (ts1 ts2 : list segment) : bool :=
  match ts1, ts2 with
  | [], [] => true
  | t1 :: r1, t2 :: r2 => segment_compatible t1 t2 && segments_compatible r1 r2
  | _, _ => false
  end.

Definition methods_compatible (ms1 ms2 : list string) : bool :=
  match ms1, ms2 with
  | [], _ | _, [] => true
  | _, _ => existsb (fun a => existsb (String.eqb a) ms2) ms1
  end.

(** Two entries that could match one request: templates of equal length
    that agree element by element, and a method in common. *)
Definition compatible (e1 e2 : string * list string) : bool :=
  segments_compatible (parse_template (fst e1)) (parse_template (fst e2))
  && methods_compatible (snd e1) (snd e2).

(** The response [okResponse] leaves in a fresh recorder. *)
Definition ok_response (s : string) : ResponseRecorder :=
  let h : gmap string string :=
    <["X-Content-Type-Options" := "nosniff"]>
      (<["Content-Type" := "text/plain; charset=utf-8"]> ∅) in
  {| Code := 200; HeaderMap := h; Body := s; wroteHeader := true; snapHeader := h |}.

(** The response [jsonResponse] leaves in a fresh recorder when the value
    marshals to [js]. *)
Definition json_response (js : string) : ResponseRecorder :=
  let h : gmap string string := <["Content-Type" := "application/json"]> ∅ in
  {| Code := 200; HeaderMap := h; Body := js; wroteHeader := true; snapHeader := h |}.



(** [rw'] continues the response [rw] whose status line is already out:
    same status, same headers sent, and the body of [rw] followed by more. *)
Definition continues (rw rw' : ResponseRecorder) : Prop :=
  wroteHeader rw' = true /\ Code rw' = Code rw /\ snapHeader rw' = snapHeader rw
  /\ exists s, Body rw' = Body rw +:+ s.

(** A handler that only continues a response that has started. *)
Definition late (h : HandlerFunc ResponseRecorder) : Prop :=
  forall rw r, wroteHeader rw = true -> continues rw (h rw r).

(** Dependencies whose dispatch answers every call, with a value that
    marshals to an empty JSON object. *)
Definition working_deps : Dependencies unit unit :=
  {| Dispatch := {| syncstorage.InfoCollections := fun _ => inl tt;
                    syncstorage.InfoCollectionUsage := fun _ => inl tt |} |}.

(** The handlers of [api.go] that [makeSyncHandler] wraps. *)
Definition wrapped_handlers {Info Usage : Type}
  `{json.Marshaler Info} `{json.Marshaler Usage}
  : list (@syncHandler Info Usage ResponseRecorder) :=
  [notImplemented; handleUIDecho; handleInfoCollections; handleInfoCollectionUsage].

End table.

Import http httptest mux api facts.

(* ===================================================================== *)
(** ** Strings and separators *)
(* ===================================================================== *)

Lemma split_on_nonempty sep s : split_on sep s <> [].
Proof.
  destruct s as [|c r]; simpl; [discriminate|].
  destruct (Ascii.eqb c sep); [discriminate|].
  destruct (split_on sep r); discriminate.
Qed.

Lemma join_cons_char sep c x xs :
  join_with sep (String c x :: xs) = String c (join_with sep (x :: xs)).
Proof. destruct xs; reflexivity. Qed.

(** Splitting and joining again gives the string back. *)
Lemma join_split sep s : join_with sep (split_on sep s) = s.
Proof.
  induction s as [|c r IH]; [reflexivity|].
  simpl. destruct (Ascii.eqb_spec c sep) as [->|Hne].
  - pose proof (split_on_nonempty sep r) as Hn.
    destruct (split_on sep r) as [|x xs]; [contradiction|].
    change (join_with sep ("" :: x :: xs)) with (String sep (join_with sep (x :: xs))).
    rewrite IH. reflexivity.
  - destruct (split_on sep r) as [|x xs] eqn:E.
    + exfalso. exact (split_on_nonempty sep r E).
    + rewrite join_cons_char, IH. reflexivity.
Qed.

(** A string without the separator is one piece. *)
Lemma split_on_none sep s :
  string_forallb (other_than sep) s = true -> split_on sep s = [s].
Proof.
  induction s as [|c r IH]; [reflexivity|]. simpl.
  intros H. apply andb_prop in H as [Hc Hr]. unfold other_than in Hc.
  destruct (Ascii.eqb c sep); [discriminate Hc|]. rewrite (IH Hr). reflexivity.
Qed.

(** The first piece ends at the first separator. *)
Lemma split_on_app sep a b :
  string_forallb (other_than sep) a = true ->
  split_on sep (a +:+ String sep b) = a :: split_on sep b.
Proof.
  induction a as [|c r IH]; simpl.
  - intros _. rewrite Ascii.eqb_refl. reflexivity.
  - intros H. apply andb_prop in H as [Hc Hr]. unfold other_than in Hc.
    destruct (Ascii.eqb c sep); [discriminate Hc|].
    change (String.append r (String sep b)) with (r +:+ String sep b).
    rewrite (IH Hr). reflexivity.
Qed.

Lemma last_char_app a b :
  nonempty b = true -> last_char (a +:+ b) = last_char b.
Proof.
  intros Hb. induction a as [|x r IH]; [reflexivity|].
  change (last_char (String x (r +:+ b)) = last_char b).
  destruct (r +:+ b) eqn:E.
  - destruct r; [change (b = EmptyString) in E; rewrite E in Hb; discriminate Hb
                |discriminate E].
  - exact IH.
Qed.

Lemma last_char_other sep a :
  nonempty a = true -> string_forallb (other_than sep) a = true ->
  exists l, last_char a = Some l /\ Ascii.eqb l sep = false.
Proof.
  induction a as [|c r IH]; [discriminate|]. intros _ H.
  simpl in H. apply andb_prop in H as [Hc Hr].
  destruct r as [|c' r'].
  - exists c. split; [reflexivity|]. unfold other_than in Hc.
    destruct (Ascii.eqb c sep); [discriminate Hc|reflexivity].
  - destruct (IH eq_refl Hr) as (l & Hl & Hne). exists l. split; [exact Hl|exact Hne].
Qed.

Lemma prefix_empty s : String.prefix "" s = true.
Proof. destruct s; reflexivity. Qed.

(** *** Paths of plain elements *)

Lemma plain_facts seg :
  plain seg = true ->
  nonempty seg = true /\ string_forallb (other_than slash) seg = true
  /\ String.eqb seg "" = false
  /\ String.eqb seg "." = false /\ String.eqb seg ".." = false.
Proof.
  unfold plain. intros H.
  apply andb_prop in H as [H H3]. apply andb_prop in H as [H H2].
  apply andb_prop in H as [Hn Hs].
  apply negb_true_iff in H2, H3.
  split; [exact Hn|]. split; [exact Hs|].
  split; [destruct seg; [discriminate Hn|reflexivity]|].
  split; assumption.
Qed.


(** Joined plain elements split into them again. *)
Lemma split_join_plain seg segs :
  Forall (fun s => plain s = true) (seg :: segs) ->
  split_on slash (join_with slash (seg :: segs)) = seg :: segs.
Proof.
  revert seg. induction segs as [|s' rest IH]; intros seg Hall.
  - apply Forall_cons in Hall as [Hs _].
    apply split_on_none. apply (plain_facts _ Hs).
  - apply Forall_cons in Hall as [Hs Hrest].
    change (join_with slash (seg :: s' :: rest))
      with (seg +:+ String slash (join_with slash (s' :: rest))).
    rewrite split_on_app by apply (plain_facts _ Hs).
    rewrite (IH s' Hrest). reflexivity.
Qed.

(** [path.Clean] keeps plain elements as they are. *)
Lemma clean_segments_plain segs stack :
  Forall (fun s => plain s = true) segs ->
  clean_segments stack segs = rev stack ++ segs.
Proof.
  revert stack. induction segs as [|s rest IH]; intros stack Hall; simpl.
  - rewrite app_nil_r. reflexivity.
  - apply Forall_cons in Hall as [Hs Hrest].
    destruct (plain_facts _ Hs) as (_ & _ & E1 & E2 & E3).
    rewrite E1, E2, E3. simpl. rewrite (IH _ Hrest). simpl.
    rewrite <- app_assoc. reflexivity.
Qed.

Lemma last_char_join seg segs :
  Forall (fun s => plain s = true) (seg :: segs) ->
  exists l, last_char (join_with slash (seg :: segs)) = Some l
            /\ Ascii.eqb l slash = false.
Proof.
  revert seg. induction segs as [|s' rest IH]; intros seg Hall.
  - apply Forall_cons in Hall as [Hs _].
    destruct (plain_facts _ Hs) as (Hn & Hsl & _).
    exact (last_char_other slash seg Hn Hsl).
  - apply Forall_cons in Hall as [Hs Hrest].
    destruct (IH s' Hrest) as (l & Hl & Hne). exists l. split; [|exact Hne].
    change (join_with slash (seg :: s' :: rest))
      with (seg +:+ String slash (join_with slash (s' :: rest))).
    rewrite last_char_app by reflexivity.
    destruct (join_with slash (s' :: rest)); [discriminate Hl|exact Hl].
Qed.

(** The path of plain elements splits into the empty element before the
    first slash and the elements, and is in canonical form: the router does
    not redirect it. *)
Lemma path_of_plain seg segs :
  Forall (fun s => plain s = true) (seg :: segs) ->
  split_on slash (path_of (seg :: segs)) = "" :: seg :: segs
  /\ cleanPath (path_of (seg :: segs)) = path_of (seg :: segs).
Proof.
  intros Hall.
  assert (Hsplit : split_on slash (path_of (seg :: segs)) = "" :: seg :: segs).
  { unfold path_of.
    change (split_on slash (String slash (join_with slash (seg :: segs))))
      with ("" :: split_on slash (join_with slash (seg :: segs))).
    rewrite (split_join_plain seg segs Hall). reflexivity. }
  split; [exact Hsplit|].
  destruct (last_char_join seg segs Hall) as (l & Hl & Hne).
  unfold cleanPath. unfold path_of at 1.
  change (Ascii.eqb slash slash) with true. cbv iota zeta.
  fold (path_of (seg :: segs)).
  assert (Hlast : last_char (path_of (seg :: segs)) = Some l).
  { unfold path_of. destruct (join_with slash (seg :: segs)); [discriminate Hl|exact Hl]. }
  rewrite Hlast, Hne. simpl.
  unfold path_Clean. rewrite Hsplit.
  change (clean_segments [] ("" :: seg :: segs)) with (clean_segments [] (seg :: segs)).
  rewrite (clean_segments_plain (seg :: segs) [] Hall). reflexivity.
Qed.

Lemma is_digit_cases c :
  is_digit c = true ->
  In c ["0"; "1"; "2"; "3"; "4"; "5"; "6"; "7"; "8"; "9"]%char.
Proof.
  destruct c as [[|] [|] [|] [|] [|] [|] [|] [|]]; intros H;
    try discriminate H; simpl; auto 11.
Qed.

Lemma digits_no_slash s :
  string_forallb is_digit s = true -> string_forallb (other_than slash) s = true.
Proof.
  induction s as [|c r IH]; [reflexivity|]. simpl.
  intros H. apply andb_prop in H as [Hc Hr]. rewrite (IH Hr), andb_true_r.
  unfold other_than.
  destruct (Ascii.eqb_spec c slash) as [->|_]; [discriminate Hc|reflexivity].
Qed.

(** A numeric uid is a plain path element. *)
Lemma numeric_plain uid : numeric uid = true -> plain uid = true.
Proof.
  intros H. apply andb_prop in H as [Hn Hd]. unfold plain.
  rewrite Hn, (digits_no_slash _ Hd). simpl.
  destruct uid as [|c r]; [discriminate Hn|].
  simpl in Hd. apply andb_prop in Hd as [Hc _].
  apply is_digit_cases in Hc. simpl in Hc.
  repeat (destruct Hc as [<-|Hc]; [reflexivity|]). contradiction.
Qed.

(* ===================================================================== *)
(** ** Properties of the router and the handlers of [api.go] *)
(* ===================================================================== *)

Lemma Error_fresh (msg : string) (code : Z) :
  Error NewRecorder msg code = error_response msg code.
Proof. reflexivity. Qed.

Section Router.
Context {Info Usage : Type}.
Context `{MI : json.Marshaler Info} `{MU : json.Marshaler Usage}.
Implicit Types (d : Dependencies Info Usage) (rw : ResponseRecorder).

Lemma ServeHTTP_matched {W : Type} `{ResponseWriter W}
  (routes : list (Route W)) (w : W) (req : Request) h vars :
  cleanPath (Path req) = Path req ->
  Match routes req = Some (h, vars) ->
  ServeHTTP routes w req = h w (withVars vars req).
Proof.
  intros Hclean Hm. unfold ServeHTTP.
  rewrite Hclean, String.eqb_refl, Hm. reflexivity.
Qed.

(** *** The handlers of this router write three headers and no other *)

Section Absent.
Variable k : string.
Hypothesis Hforeign : foreign k.

Let not_written k' : In k' written_headers -> k <> k'.
Proof. intros Hin ->. exact (Hforeign Hin). Qed.

Lemma lacks_HeaderSet k' v rw :
  In k' written_headers -> lacks k rw -> lacks k (rec_HeaderSet k' v rw).
Proof.
  intros Hin [Hl Hs]. split; simpl; [|exact Hs].
  rewrite lookup_insert_ne; [exact Hl|].
  intros Heq. exact (not_written k' Hin (eq_sym Heq)).
Qed.

Lemma lacks_WriteHeader code rw : lacks k rw -> lacks k (rec_WriteHeader code rw).
Proof.
  intros [Hl Hs]. unfold rec_WriteHeader.
  destruct (wroteHeader rw); split; simpl; assumption.
Qed.

Lemma lacks_Write s rw : lacks k rw -> lacks k (rec_Write s rw).
Proof.
  intros Hk. apply (lacks_WriteHeader 200) in Hk.
  destruct Hk as [Hl Hs]. split; simpl; assumption.
Qed.

Lemma lacks_Error rw msg code : lacks k rw -> lacks k (Error rw msg code).
Proof.
  intros Hk. unfold Error, Fprintln; simpl.
  apply lacks_Write, lacks_WriteHeader.
  apply lacks_HeaderSet; [simpl; tauto|].
  apply lacks_HeaderSet; [simpl; tauto|exact Hk].
Qed.

Lemma lacks_okResponse rw s : lacks k rw -> lacks k (okResponse rw s).
Proof.
  intros Hk. unfold okResponse, Fprint; simpl.
  apply lacks_Write, lacks_WriteHeader.
  apply lacks_HeaderSet; [simpl; tauto|].
  apply lacks_HeaderSet; [simpl; tauto|exact Hk].
Qed.

Lemma lacks_jsonResponse {V : Type} `{json.Marshaler V} rw r d (val : V) :
  lacks k rw -> lacks k (jsonResponse rw r d val).
Proof.
  intros Hk. unfold jsonResponse, errorResponse.
  destruct (json.Marshal val).
  - simpl. apply lacks_Write, lacks_HeaderSet; [simpl; tauto|exact Hk].
  - apply lacks_Error, Hk.
Qed.

Lemma quiet_makeSyncHandler d (h : syncHandler) :
  (forall rw r uid, lacks k rw -> lacks k (h rw r d uid)) ->
  quiet k (makeSyncHandler d h).
Proof.
  intros Hh rw r Hk. unfold makeSyncHandler.
  destruct (Vars r !! "uid"); apply Hh; [exact Hk | apply lacks_Error, Hk].
Qed.

Lemma quiet_NewRouter d :
  Forall (quiet k) (flat_map handlers_of (NewRouter d)).
Proof.
  unfold NewRouter; simpl.
  repeat (apply Forall_cons; split);
    try (apply quiet_makeSyncHandler; intros rw r uid Hk);
    try (intros rw r Hk).
  all: unfold notImplemented, handleHeartbeat, handleUIDecho,
         handleInfoCollections, handleInfoCollectionUsage, errorResponse.
  all: repeat match goal with
         | |- context [match ?x with inl _ => _ | inr _ => _ end] => destruct x
         end.
  all: first [ apply List.Forall_nil | apply lacks_Error, Hk
             | apply lacks_okResponse, Hk | apply lacks_jsonResponse, Hk ].
Qed.

End Absent.

(** The handler a request is matched to is one of the registered ones. *)
Lemma match_route_handler {W : Type} :
  forall (r : Route W) req h vars,
    match_route r req = Some (h, vars) -> In h (handlers_of r).
Proof.
  fix IH 1. intros [tpl ms h0 | prefix rs] req h vars; simpl.
  - destruct (_ && _); [|discriminate].
    intros [= <- _]. left; reflexivity.
  - destruct (prefix_matches _ _); [|discriminate].
    revert rs. fix IHrs 1. intros [|r' rs']; simpl; [discriminate|].
    destruct (match_route r' req) as [[h' vars']|] eqn:E.
    + intros [= -> ->]. apply in_or_app. left. exact (IH _ _ _ _ E).
    + intros Hm. apply in_or_app. right. exact (IHrs _ Hm).
Qed.

Lemma Match_handler {W : Type} (routes : list (Route W)) req h vars :
  Match routes req = Some (h, vars) -> In h (flat_map handlers_of routes).
Proof.
  induction routes as [|r rest IH]; simpl; [discriminate|].
  destruct (match_route r req) as [[h' vars']|] eqn:E.
  - intros [= -> ->]. apply in_or_app. left. exact (match_route_handler _ _ _ _ E).
  - intros Hm. apply in_or_app. right. exact (IH Hm).
Qed.

Lemma lacks_ServeHTTP k d rw req :
  foreign k -> lacks k rw -> lacks k (ServeHTTP (NewRouter d) rw req).
Proof.
  intros Hf Hk. unfold ServeHTTP.
  destruct (negb _).
  - simpl. apply lacks_WriteHeader, lacks_HeaderSet; [exact Hf|simpl; tauto|exact Hk].
  - destruct (Match (NewRouter d) req) as [[h vars]|] eqn:E.
    + apply Match_handler in E.
      pose proof (quiet_NewRouter k Hf d) as Hq.
      rewrite Forall_forall in Hq.
      apply (Hq h); [apply list_elem_of_In; exact E | exact Hk].
    + apply lacks_Error; assumption.
Qed.

(** Whatever the request, a header other than the three written ones is
    absent from the response to a fresh recorder. *)
Lemma foreign_header_absent k d req :
  foreign k ->
  ResultHeader (ServeHTTP (NewRouter d) NewRecorder req) !! k = None
  /\ HeaderMap (ServeHTTP (NewRouter d) NewRecorder req) !! k = None.
Proof.
  intros Hf.
  assert (Hk : lacks k (ServeHTTP (NewRouter d) NewRecorder req)).
  { apply lacks_ServeHTTP; [exact Hf|]. split; reflexivity. }
  destruct Hk as [Hl Hs]. split; [|exact Hl].
  unfold ResultHeader. destruct (wroteHeader _); assumption.
Qed.

(** *** What the routes answer *)


(** A request in canonical form that is matched to a wrapped handler, with
    a uid among the path variables, is answered by that handler. *)
Lemma served_by d (req : Request) (h : syncHandler) vars uid :
  cleanPath (Path req) = Path req ->
  Match (NewRouter (W:=ResponseRecorder) d) req = Some (makeSyncHandler d h, vars) ->
  vars !! "uid" = Some uid ->
  ServeHTTP (NewRouter d) NewRecorder req = h NewRecorder (withVars vars req) d uid.
Proof.
  intros Hclean Hmatch Huid.
  rewrite (ServeHTTP_matched _ _ req _ _ Hclean Hmatch).
  unfold makeSyncHandler. cbn [Vars withVars]. rewrite Huid. reflexivity.
Qed.

Ltac plain_list :=
  repeat (apply Forall_cons; split; [first [assumption | reflexivity]|]);
  apply List.Forall_nil.

Ltac route_match Hsplit :=
  unfold NewRouter, Match, match_route, path_matches, prefix_matches, path_vars;
  cbn [Path Method]; rewrite Hsplit; simpl;
  repeat match goal with
         | H : pattern_matches _ _ = true |- _ => rewrite H
         end;
  rewrite ?prefix_empty.

(** The routes of the two info handlers, for every numeric uid. *)
Lemma info_collections_route d uid q hdr vars :
  numeric uid = true ->
  ServeHTTP (NewRouter d) NewRecorder
    (mkRequest "GET" ("/1.5/" +:+ uid +:+ "/info/collections") q hdr vars)
  = handleInfoCollections NewRecorder
      (mkRequest "GET" ("/1.5/" +:+ uid +:+ "/info/collections") q hdr
         (<["uid" := uid]> ∅)) d uid.
Proof.
  intros Hu. pose proof (numeric_plain _ Hu) as Pu.
  change ("/1.5/" +:+ uid +:+ "/info/collections")
    with (path_of ["1.5"; uid; "info"; "collections"]).
  destruct (path_of_plain "1.5" [uid; "info"; "collections"]) as [Hsplit Hclean];
    [plain_list|].
  change (pattern_matches "[0-9]+" uid = true) in Hu.
  rewrite (served_by d _ handleInfoCollections (<["uid" := uid]> ∅) uid); first reflexivity.
  - exact Hclean.
  - route_match Hsplit. reflexivity.
  - apply lookup_insert_eq.
Qed.

Lemma info_collection_usage_route d uid q hdr vars :
  numeric uid = true ->
  ServeHTTP (NewRouter d) NewRecorder
    (mkRequest "GET" ("/1.5/" +:+ uid +:+ "/info/collection_usage") q hdr vars)
  = handleInfoCollectionUsage NewRecorder
      (mkRequest "GET" ("/1.5/" +:+ uid +:+ "/info/collection_usage") q hdr
         (<["uid" := uid]> ∅)) d uid.
Proof.
  intros Hu. pose proof (numeric_plain _ Hu) as Pu.
  change ("/1.5/" +:+ uid +:+ "/info/collection_usage")
    with (path_of ["1.5"; uid; "info"; "collection_usage"]).
  destruct (path_of_plain "1.5" [uid; "info"; "collection_usage"]) as [Hsplit Hclean];
    [plain_list|].
  change (pattern_matches "[0-9]+" uid = true) in Hu.
  rewrite (served_by d _ handleInfoCollectionUsage (<["uid" := uid]> ∅) uid);
    first reflexivity.
  - exact Hclean.
  - route_match Hsplit. reflexivity.
  - apply lookup_insert_eq.
Qed.








End Router.





(** *** The wrapper [makeSyncHandler] and the error path of the info
    handlers *)

Section Wrapper.
Context {Info Usage : Type}.
Context `{MI : json.Marshaler Info} `{MU : json.Marshaler Usage}.
Context {W : Type} `{RW : ResponseWriter W}.
Implicit Types (d : Dependencies Info Usage) (w : W).

Import probe.

(** Whatever the request, the wrapper adds one call to the log. *)
Lemma makeSyncHandler_calls_once d (h : syncHandler) (p : Probe W) r :
  exists uid, calls (makeSyncHandler d (logged h) p r) = calls p ++ [uid].
Proof.
  unfold makeSyncHandler. destruct (Vars r !! "uid") as [uid|].
  - exists uid. reflexivity.
  - exists "". reflexivity.
Qed.

(** With a uid among the path variables the wrapper writes nothing and
    passes the uid on. *)
Lemma makeSyncHandler_uid d (h : syncHandler) w (r : Request) uid :
  Vars r !! "uid" = Some uid -> makeSyncHandler d h w r = h w r d uid.
Proof. intros Huid. unfold makeSyncHandler. rewrite Huid. reflexivity. Qed.

(** C9: when the path variables hold no "uid", [makeSyncHandler] writes the
    400 "UID missing" error (on a fresh recorder: status 400, body
    "UID missing" and a newline) and then runs the inner handler on that
    writer with the empty uid.  With the calls of the inner handler logged,
    the log of such a request is exactly one call with the empty uid, and
    the log of any request at all, uid or not, has exactly one entry. *)
Theorem C9_missing_uid_still_runs_handler d (h : syncHandler) w (r : Request) :
  Vars r !! "uid" = None ->
  makeSyncHandler d h w r = h (Error w "UID missing" StatusBadRequest) r d ""
  /\ Error NewRecorder "UID missing" StatusBadRequest = error_response "UID missing" 400
  /\ writer (makeSyncHandler d (logged h) (mkProbe w []) r)
     = h (Error w "UID missing" StatusBadRequest) r d ""
  /\ calls (makeSyncHandler d (logged h) (mkProbe w []) r) = [""]
  /\ forall r' : Request,
       length (calls (makeSyncHandler d (logged h) (mkProbe w []) r')) = 1%nat.
Proof.
  intros Huid.
  unfold makeSyncHandler at 1 2 3. rewrite Huid. simpl.
  repeat split.
  intros r'.
  destruct (makeSyncHandler_calls_once d h (mkProbe w []) r') as [uid ->].
  reflexivity.
Qed.

(** C10: when the dispatch call of an info handler returns an error, the
    handler answers through [errorResponse], that is [http.Error] with the
    text of [http.StatusText(500)] and status 500, whatever the error value.
    On a fresh recorder, and so for every request the router passes to the
    handler, the response is status 500 with the body
    "Internal Server Error" followed by the newline of [http.Error], and
    plain-text headers: one constant response for every error. *)
Theorem C10_info_errors_answer_500 d (r : Request) (uid : string) (err : error) :
  (syncstorage.InfoCollections (Dispatch d) uid = inr err ->
   (forall w, handleInfoCollections w r d uid
              = Error w "Internal Server Error" StatusInternalServerError)
   /\ handleInfoCollections NewRecorder r d uid
      = error_response "Internal Server Error" 500
   /\ (numeric uid = true ->
       forall q hdr vars,
         ServeHTTP (NewRouter d) NewRecorder
           (mkRequest "GET" ("/1.5/" +:+ uid +:+ "/info/collections") q hdr vars)
         = error_response "Internal Server Error" 500))
  /\ (syncstorage.InfoCollectionUsage (Dispatch d) uid = inr err ->
      (forall w, handleInfoCollectionUsage w r d uid
                 = Error w "Internal Server Error" StatusInternalServerError)
      /\ handleInfoCollectionUsage NewRecorder r d uid
         = error_response "Internal Server Error" 500
      /\ (numeric uid = true ->
          forall q hdr vars,
            ServeHTTP (NewRouter d) NewRecorder
              (mkRequest "GET" ("/1.5/" +:+ uid +:+ "/info/collection_usage") q hdr vars)
            = error_response "Internal Server Error" 500))
  /\ Code (error_response "Internal Server Error" 500) = StatusInternalServerError
  /\ Body (error_response "Internal Server Error" 500)
     = StatusText StatusInternalServerError +:+ newline.
Proof.
  split; [|split; [|split; reflexivity]].
  - intros E. split; [|split].
    + intros w. unfold handleInfoCollections. rewrite E. reflexivity.
    + unfold handleInfoCollections. rewrite E. reflexivity.
    + intros Hu q hdr vars. rewrite (info_collections_route d uid q hdr vars Hu).
      unfold handleInfoCollections. rewrite E. reflexivity.
  - intros E. split; [|split].
    + intros w. unfold handleInfoCollectionUsage. rewrite E. reflexivity.
    + unfold handleInfoCollectionUsage. rewrite E. reflexivity.
    + intros Hu q hdr vars. rewrite (info_collection_usage_route d uid q hdr vars Hu).
      unfold handleInfoCollectionUsage. rewrite E. reflexivity.
Qed.

End Wrapper.

(** The request [DELETE /], whose route has no uid variable: the wrapper
    writes 400 and "UID missing", and [notImplemented] still runs and appends
    its own message. *)
Lemma C9_delete_root_witness :
  Vars (NewRequest "DELETE" "/") !! "uid" = None
  /\ makeSyncHandler (failing_deps syncstorage.ErrNotFound) notImplemented
       NewRecorder (NewRequest "DELETE" "/")
     = notImplemented (Error NewRecorder "UID missing" StatusBadRequest)
         (NewRequest "DELETE" "/") (failing_deps syncstorage.ErrNotFound) "".
Proof.
  split; [reflexivity|].
  apply (C9_missing_uid_still_runs_handler
           (failing_deps syncstorage.ErrNotFound) notImplemented NewRecorder
           (NewRequest "DELETE" "/")).
  reflexivity.
Defined.

Example delete_root_response :
  let rw := ServeHTTP (NewRouter (failing_deps syncstorage.ErrNotFound))
              NewRecorder (NewRequest "DELETE" "/") in
  Code rw = 400 /\ Body rw = "UID missing" +:+ newline +:+ "Not implemented" +:+ newline.
Proof. split; reflexivity. Qed.

(** A dispatch that answers not-found: both info handlers answer 500. *)
Lemma C10_not_found_witness :
  handleInfoCollections NewRecorder (NewRequest "GET" "/1.5/123456/info/collections")
    (failing_deps syncstorage.ErrNotFound) "123456"
  = error_response "Internal Server Error" 500
  /\ handleInfoCollectionUsage NewRecorder (NewRequest "GET" "/1.5/123456/info/collection_usage")
       (failing_deps syncstorage.ErrNotFound) "123456"
     = error_response "Internal Server Error" 500.
Proof.
  split.
  - apply (proj1 (C10_info_errors_answer_500 (W:=ResponseRecorder)
                    (failing_deps syncstorage.ErrNotFound)
                    (NewRequest "GET" "/1.5/123456/info/collections") "123456"
                    syncstorage.ErrNotFound)).
    reflexivity.
  - apply (proj1 (proj2 (C10_info_errors_answer_500 (W:=ResponseRecorder)
                    (failing_deps syncstorage.ErrNotFound)
                    (NewRequest "GET" "/1.5/123456/info/collection_usage") "123456"
                    syncstorage.ErrNotFound))).
    reflexivity.
Defined.

Example info_collections_route_error (e : error) :
  ServeHTTP (NewRouter (failing_deps e)) NewRecorder
    (NewRequest "GET" "/1.5/123456/info/collections")
  = error_response "Internal Server Error" 500.
Proof. reflexivity. Qed.

(* ===================================================================== *)
(** ** Timestamps on the wire *)
(* ===================================================================== *)

Import timestamp.

Lemma uint_of_char_digit c d :
  is_digit c = true -> exists d', uint_of_char c (Some d) = Some d'.
Proof.
  intros H. apply is_digit_cases in H. simpl in H.
  repeat (destruct H as [<-|H]; [eexists; reflexivity|]). contradiction.
Qed.

Lemma uint_of_string_digits s :
  string_forallb is_digit s = true -> exists d, NilEmpty.uint_of_string s = Some d.
Proof.
  induction s as [|c r IH]; simpl; [eauto|].
  intros H. apply andb_prop in H as [Hc Hr].
  destruct (IH Hr) as [d ->]. apply uint_of_char_digit, Hc.
Qed.

Lemma uint_of_char_is_digit c o d : uint_of_char c o = Some d -> is_digit c = true.
Proof.
  destruct o as [d0|]; [|discriminate].
  intros H. apply uint_of_char_spec in H.
  repeat (destruct H as [[-> _]|H]; [reflexivity|]).
  destruct H as [-> _]. reflexivity.
Qed.

Lemma digits_of_uint_of_string s d :
  NilEmpty.uint_of_string s = Some d -> string_forallb is_digit s = true.
Proof.
  revert d. induction s as [|c r IH]; simpl; [reflexivity|].
  intros d H. rewrite (uint_of_char_is_digit _ _ _ H). simpl.
  destruct (NilEmpty.uint_of_string r) as [d0|]; [eapply IH; reflexivity|].
  discriminate H.
Qed.

(** Canonical seconds parse to a numeral without leading zeros. *)
Lemma canonical_seconds_uint s :
  canonical_seconds s = true ->
  exists d, NilZero.uint_of_string s = Some d /\ unorm d = d.
Proof.
  destruct s as [|c r]; [discriminate|].
  unfold canonical_seconds.
  destruct (Ascii.eqb_spec c "0") as [->|Hc].
  - intros H. apply String.eqb_eq in H as ->. exists (D0 Nil). split; reflexivity.
  - intros H. destruct (uint_of_string_digits _ H) as [d Hd].
    exists d. split; [exact Hd|].
    simpl in Hd, H. apply andb_prop in H as [Hdig _].
    destruct (NilEmpty.uint_of_string r) as [d0|]; [|discriminate].
    apply is_digit_cases in Hdig. simpl in Hdig.
    destruct Hdig as [<-|Hdig]; [congruence|].
    repeat (destruct Hdig as [<-|Hdig]; [injection Hd as <-; reflexivity|]).
    contradiction.
Qed.

Lemma of_uint_nonneg d : 0 <= Z.of_uint d.
Proof. unfold Z.of_uint. lia. Qed.

Lemma fmt_d_of_uint d : fmt_d (Z.of_uint d) = NilZero.string_of_uint (unorm d).
Proof.
  unfold fmt_d. change (Z.of_uint d) with (Z.of_int (Pos d)).
  rewrite DecimalZ.to_of. reflexivity.
Qed.

(** Printing the seconds that were parsed from a canonical string. *)
Lemma fmt_d_parse_uint s :
  canonical_seconds s = true ->
  exists v, parse_uint s = Some v /\ 0 <= v /\ fmt_d v = s.
Proof.
  intros H. destruct (canonical_seconds_uint s H) as (d & Hd & Hn).
  exists (Z.of_uint d). unfold parse_uint. rewrite Hd. simpl.
  split; [reflexivity|]. split; [apply of_uint_nonneg|].
  rewrite fmt_d_of_uint, Hn. apply NilZero.sus, Hd.
Qed.

(** Two digits are the hundredths [%02d] prints. *)
Lemma fmt_02d_parse_hundredths c1 c2 :
  is_digit c1 = true -> is_digit c2 = true ->
  exists f, parse_hundredths (String c1 (String c2 "")) = Some f
            /\ 0 <= f < 100 /\ fmt_02d f = String c1 (String c2 "").
Proof.
  intros H1 H2. apply is_digit_cases in H1, H2. simpl in H1, H2.
  repeat (destruct H1 as [<-|H1]; [|]); try contradiction.
  all: repeat (destruct H2 as [<-|H2]; [|]); try contradiction.
  all: eexists; split; [reflexivity|].
  all: vm_compute; split; [split; [discriminate|reflexivity]|reflexivity].
Qed.

Lemma quot_rem_hundred v f :
  0 <= v -> 0 <= f < 100 ->
  Z.quot (100 * v + f) 100 = v /\ Z.rem (100 * v + f) 100 = f.
Proof.
  intros Hv Hf.
  rewrite Z.quot_div_nonneg, Z.rem_mod_nonneg by lia.
  split.
  - symmetry. apply (Z.div_unique _ _ v f); lia.
  - symmetry. apply (Z.mod_unique _ _ v f); lia.
Qed.

(** Parsing a legal timestamp string and printing the result gives the
    string back. *)
Lemma ModifiedToString_ParseTimestamp s :
  legal_timestamp s = true ->
  exists n, ParseTimestamp s = Some n /\ 0 <= n /\ ModifiedToString n = s.
Proof.
  unfold legal_timestamp, ParseTimestamp.
  pose proof (join_split dot s) as Hjoin.
  destruct (split_on dot s) as [|secs [|frac rest]]; try discriminate.
  destruct frac as [|c1 [|c2 [|? ?]]], rest as [|? ?]; try discriminate.
  intros H. apply andb_prop in H as [H H2]. apply andb_prop in H as [Hs H1].
  destruct (fmt_d_parse_uint secs Hs) as (v & -> & Hv & Hfv).
  destruct (fmt_02d_parse_hundredths c1 c2 H1 H2) as (f & -> & Hf & Hff).
  exists (100 * v + f). split; [reflexivity|]. split; [lia|].
  unfold ModifiedToString.
  destruct (quot_rem_hundred v f Hv Hf) as [-> ->].
  rewrite Hfv, Hff. exact Hjoin.
Qed.

(** The hundredths of a non-negative timestamp print as two characters. *)
Lemma fmt_02d_width n : 0 <= n -> String.length (fmt_02d (Z.rem n 100)) = 2%nat.
Proof.
  intros Hn.
  assert (Hall : forallb (fun k => Nat.eqb (String.length (fmt_02d (Z.of_nat k))) 2)
                   (seq 0 100) = true) by (vm_compute; reflexivity).
  rewrite forallb_forall in Hall.
  assert (Hr : 0 <= Z.rem n 100 < 100) by (apply Z.rem_bound_pos; lia).
  specialize (Hall (Z.to_nat (Z.rem n 100))).
  rewrite Z2Nat.id in Hall by lia.
  apply Nat.eqb_eq, Hall, in_seq. lia.
Qed.

(** What the parser accepts is made of digits and dots. *)
Lemma split_numeric s :
  Forall (fun piece => string_forallb is_digit piece = true) (split_on dot s) ->
  string_forallb numeric_char s = true.
Proof.
  induction s as [|c r IH]; [reflexivity|].
  simpl. unfold numeric_char at 1.
  destruct (Ascii.eqb c dot) eqn:Ec.
  - intros H. rewrite orb_true_r. simpl. apply IH.
    apply Forall_cons in H. exact (proj2 H).
  - destruct (split_on dot r) as [|x xs] eqn:E.
    + exfalso. exact (split_on_nonempty dot r E).
    + intros H. apply Forall_cons in H as [Hc Hxs].
      simpl in Hc. apply andb_prop in Hc as [Hc Hx].
      rewrite Hc. simpl. apply IH. apply Forall_cons. split; assumption.
Qed.

Lemma parse_uint_digits s v : parse_uint s = Some v -> string_forallb is_digit s = true.
Proof.
  unfold parse_uint, NilZero.uint_of_string.
  destruct s as [|c r]; [discriminate|].
  destruct (NilEmpty.uint_of_string (String c r)) as [d|] eqn:E; [|discriminate].
  intros _. exact (digits_of_uint_of_string _ _ E).
Qed.

Lemma parse_hundredths_digits s f :
  parse_hundredths s = Some f -> string_forallb is_digit s = true.
Proof.
  unfold parse_hundredths.
  destruct s as [|c1 [|c2 [|? ?]]]; try discriminate.
  - destruct (parse_uint (String c1 "")) as [v|] eqn:E; [|discriminate].
    intros _. exact (parse_uint_digits _ _ E).
  - apply parse_uint_digits.
Qed.

Lemma ParseTimestamp_numeric s n :
  ParseTimestamp s = Some n -> string_forallb numeric_char s = true /\ 0 <= n.
Proof.
  unfold ParseTimestamp. intros H.
  assert (Hpos : forall x v, parse_uint x = Some v -> 0 <= v).
  { intros x v. unfold parse_uint.
    destruct (NilZero.uint_of_string x) as [d|]; [|discriminate].
    intros [= <-]. apply of_uint_nonneg. }
  assert (Hfrac : forall x f, parse_hundredths x = Some f -> 0 <= f).
  { intros x f. unfold parse_hundredths.
    destruct x as [|c1 [|c2 [|? ?]]]; try discriminate.
    - destruct (parse_uint (String c1 "")) as [v|] eqn:E; [|discriminate].
      intros [= <-]. specialize (Hpos _ _ E). lia.
    - apply Hpos. }
  split.
  - apply split_numeric.
    destruct (split_on dot s) as [|secs [|frac [|? ?]]]; try discriminate.
    + destruct (parse_uint secs) as [v|] eqn:E; [|discriminate].
      apply Forall_cons. split; [exact (parse_uint_digits _ _ E)|apply List.Forall_nil].
    + destruct (parse_uint secs) as [v|] eqn:E; [|discriminate].
      destruct (parse_hundredths frac) as [f|] eqn:F; [|discriminate].
      apply Forall_cons. split; [exact (parse_uint_digits _ _ E)|].
      apply Forall_cons. split; [exact (parse_hundredths_digits _ _ F)|apply List.Forall_nil].
  - destruct (split_on dot s) as [|secs [|frac [|? ?]]]; try discriminate.
    + destruct (parse_uint secs) as [v|] eqn:E; [|discriminate].
      injection H as <-. specialize (Hpos _ _ E). lia.
    + destruct (parse_uint secs) as [v|] eqn:E; [|discriminate].
      destruct (parse_hundredths frac) as [f|] eqn:F; [|discriminate].
      injection H as <-. specialize (Hpos _ _ E). specialize (Hfrac _ _ F). lia.
Qed.

(** What [ModifiedToString] prints for a non-negative timestamp is a legal
    timestamp string. *)
Lemma string_of_uint_digits d :
  string_forallb is_digit (NilEmpty.string_of_uint d) = true.
Proof. induction d; simpl; auto. Qed.

Lemma canonical_unorm d : canonical_seconds (NilZero.string_of_uint (unorm d)) = true.
Proof.
  unfold unorm. destruct (nzhead d) eqn:E; try reflexivity;
    try (simpl; apply string_of_uint_digits).
  exfalso. exact (nzhead_nonzero _ _ E).
Qed.

Lemma fmt_d_canonical q : 0 <= q -> canonical_seconds (fmt_d q) = true.
Proof.
  intros Hq.
  assert (Hd : exists d, q = Z.of_uint d).
  { rewrite <- (DecimalZ.of_to q).
    destruct q as [|p|p]; [eexists; reflexivity|eexists; reflexivity|lia]. }
  destruct Hd as [d ->]. rewrite fmt_d_of_uint. apply canonical_unorm.
Qed.

Lemma canonical_digits s : canonical_seconds s = true -> string_forallb is_digit s = true.
Proof.
  destruct s as [|c r]; [discriminate|]. unfold canonical_seconds.
  destruct (Ascii.eqb_spec c "0") as [->|_]; [|auto].
  intros H. apply String.eqb_eq in H as ->. reflexivity.
Qed.

Lemma digits_no_dot s :
  string_forallb is_digit s = true -> string_forallb (other_than dot) s = true.
Proof.
  induction s as [|c r IH]; [reflexivity|]. simpl.
  intros H. apply andb_prop in H as [Hc Hr]. rewrite (IH Hr), andb_true_r.
  unfold other_than.
  destruct (Ascii.eqb_spec c dot) as [->|_]; [discriminate Hc|reflexivity].
Qed.

Lemma fmt_02d_two_digits r : 0 <= r < 100 -> two_digits (fmt_02d r) = true.
Proof.
  intros Hr.
  assert (Hall : forallb (fun k => two_digits (fmt_02d (Z.of_nat k))) (seq 0 100) = true)
    by (vm_compute; reflexivity).
  rewrite forallb_forall in Hall.
  specialize (Hall (Z.to_nat r)). rewrite Z2Nat.id in Hall by lia.
  apply Hall, in_seq. lia.
Qed.

Lemma ModifiedToString_legal n : 0 <= n -> legal_timestamp (ModifiedToString n) = true.
Proof.
  intros Hn. unfold ModifiedToString, legal_timestamp.
  assert (Hq : 0 <= Z.quot n 100) by (apply Z.quot_pos; lia).
  assert (Hr : 0 <= Z.rem n 100 < 100) by (apply Z.rem_bound_pos; lia).
  pose proof (fmt_d_canonical _ Hq) as Hc.
  pose proof (fmt_02d_two_digits _ Hr) as Ht.
  rewrite (split_on_app dot) by (apply digits_no_dot, canonical_digits, Hc).
  destruct (fmt_02d (Z.rem n 100)) as [|c1 [|c2 [|? ?]]]; try discriminate Ht.
  simpl in Ht. apply andb_prop in Ht as [H1 H2].
  rewrite (split_on_none dot) by (apply digits_no_dot; simpl; rewrite H1, H2; reflexivity).
  rewrite Hc, H1, H2. reflexivity.
Qed.

(** C8: on every legal timestamp string [s] of the wire format
    [seconds.hh], the parser returns a timestamp that [ModifiedToString]
    prints as [s] again.  [ModifiedToString n] is [%d] of [n/100], a dot, and
    [%02d] of [n%100], which for a non-negative [n] is two characters wide
    and makes a legal timestamp string.  The parser rejects a string with a
    leading minus sign and any string with a character that is not a digit
    or a dot, and never returns a negative value. *)
Theorem C8_timestamp_round_trip (s : string) :
  legal_timestamp s = true ->
  (exists n, ParseTimestamp s = Some n /\ ModifiedToString n = s)
  /\ (forall n, 0 <= n ->
        ModifiedToString n = fmt_d (n / 100) +:+ "." +:+ fmt_02d (n mod 100)
        /\ String.length (fmt_02d (n mod 100)) = 2%nat
        /\ legal_timestamp (ModifiedToString n) = true)
  /\ (forall rest, ParseTimestamp (String "-" rest) = None)
  /\ (forall t, string_forallb numeric_char t = false -> ParseTimestamp t = None)
  /\ (forall t n, ParseTimestamp t = Some n -> 0 <= n).
Proof.
  intros Hs. split; [|split; [|split; [|split]]].
  - destruct (ModifiedToString_ParseTimestamp s Hs) as (n & Hp & _ & Hm). eauto.
  - intros n Hn. split; [|split].
    + unfold ModifiedToString.
      rewrite Z.quot_div_nonneg, Z.rem_mod_nonneg by lia. reflexivity.
    + rewrite <- Z.rem_mod_nonneg by lia. apply fmt_02d_width, Hn.
    + apply ModifiedToString_legal, Hn.
  - intros rest. destruct (ParseTimestamp (String "-" rest)) as [n|] eqn:E; [|reflexivity].
    apply ParseTimestamp_numeric in E as [E _]. discriminate E.
  - intros t Ht. destruct (ParseTimestamp t) as [n|] eqn:E; [|reflexivity].
    apply ParseTimestamp_numeric in E as [E _]. congruence.
  - intros t n E. apply ParseTimestamp_numeric in E as [_ E]. exact E.
Qed.

(** The round trip on the timestamp 1448191234.56. *)
Lemma C8_round_trip_witness :
  legal_timestamp "1448191234.56" = true
  /\ exists n, ParseTimestamp "1448191234.56" = Some n
               /\ ModifiedToString n = "1448191234.56".
Proof.
  split; [reflexivity|].
  apply (C8_timestamp_round_trip "1448191234.56"). reflexivity.
Defined.

(* ===================================================================== *)
(** ** The pool sizes chosen by [main] *)
(* ===================================================================== *)

Import main.

(** While the configured number fits 16 bits, every pool gets the integer
    quotient, and the pools together stay within the budget. *)
Lemma cacheSize_in_range cfg :
  0 <= MaxOpenFiles cfg < 65536 ->
  cacheSize cfg = MaxOpenFiles cfg / 8
  /\ 8 * cacheSize cfg <= MaxOpenFiles cfg < 8 * cacheSize cfg + 8.
Proof.
  intros H. unfold cacheSize, uint16, numPools, uint16.
  rewrite (Z.mod_small (MaxOpenFiles cfg)) by lia.
  change (8 mod 65536) with 8.
  split; [reflexivity|].
  pose proof (Z.mul_div_le (MaxOpenFiles cfg) 8 ltac:(lia)).
  pose proof (Z.mul_succ_div_gt (MaxOpenFiles cfg) 8 ltac:(lia)).
  lia.
Qed.

(** C7 (the code misses this for large settings): [main] always asks for 8
    pools, and the cache size it passes is the quotient by 8 of the low 16
    bits of [config.MaxOpenFiles].  With 65536 open files configured each
    pool gets a cache of size 0, where the even split is 8192. *)
Theorem C7_cache_size_of_low_16_bits :
  (forall cfg,
     arg_numPools (main_NewDispatch cfg) = 8
     /\ arg_cacheSize (main_NewDispatch cfg) = (MaxOpenFiles cfg mod 65536) / 8)
  /\ (let cfg := {| MaxOpenFiles := 65536; DataDir := "/data"; Port := 8000 |} in
      arg_cacheSize (main_NewDispatch cfg) = 0
      /\ MaxOpenFiles cfg / arg_numPools (main_NewDispatch cfg) = 8192).
Proof.
  split.
  - intros cfg. split; reflexivity.
  - split; reflexivity.
Qed.

(* ===================================================================== *)
(** ** Updates of a stored record *)
(* ===================================================================== *)

Import store.

Section Updates.
Variables (now cid : Z).

Lemma validate_ttl bid p si t : validate bid p si (Some t) = None -> 0 <= t.
Proof.
  unfold validate.
  destruct (negb (valid_bsoid bid)); [discriminate|].
  destruct (match p with Some _ => _ | None => _ end); [discriminate|].
  destruct (match si with Some (Some _) => _ | _ => _ end); [discriminate|].
  destruct (Z.ltb_spec t 0); [discriminate|]. intros _. assumption.
Qed.

Lemma GetBSO_visible s bid b : GetBSO s now cid bid = Some b -> visible now b = true.
Proof.
  unfold GetBSO. destruct (bsos s !! (cid, bid)) as [b0|]; [|discriminate].
  destruct (visible now b0) eqn:E; [|discriminate]. intros [= <-]. exact E.
Qed.

(** A record that was just written is visible. *)
Lemma written_visible s bid p si ttl :
  validate bid p si ttl = None ->
  visible now (written now (GetBSO s now cid bid) p si ttl) = true.
Proof.
  intros Hv. unfold visible, written. simpl.
  destruct ttl as [t|].
  - apply validate_ttl in Hv. apply Z.leb_le. lia.
  - destruct (GetBSO s now cid bid) as [b|] eqn:E; simpl; [|reflexivity].
    apply GetBSO_visible in E. exact E.
Qed.

(** [PutBSO] on valid input succeeds, returns the timestamp of the call, and
    the record read back is the written one. *)
Lemma PutBSO_valid s bid p si ttl :
  validate bid p si ttl = None ->
  exists s', PutBSO s now cid bid p si ttl = inl (s', now)
    /\ GetBSO s' now cid bid = Some (written now (GetBSO s now cid bid) p si ttl)
    /\ forall bid', bid' <> bid -> GetBSO s' now cid bid' = GetBSO s now cid bid'.
Proof.
  intros Hv. unfold PutBSO. rewrite Hv. eexists. split; [reflexivity|]. split.
  - unfold GetBSO at 1. simpl. rewrite lookup_insert_eq.
    rewrite (written_visible s bid p si ttl Hv). reflexivity.
  - intros bid' Hne. unfold GetBSO. simpl.
    rewrite lookup_insert_ne by congruence. reflexivity.
Qed.

(** A property of the record [bid] that every write of the batch to [bid]
    keeps holds after the batch. *)
Lemma PostBSOs_from_keeps (Q : BSO -> Prop) (ok : PutBSOInput -> Prop) bid :
  (forall b i, Q b -> ok i ->
     Q (written now (Some b) (in_Payload i) (in_SortIndex i) (in_TTL i))) ->
  forall inputs s res b,
    GetBSO s now cid bid = Some b -> Q b ->
    (forall i, In i inputs -> Id i = bid -> ok i) ->
    exists b', GetBSO (fst (PostBSOs_from s res now cid inputs)) now cid bid = Some b'
               /\ Q b'.
Proof.
  intros Hkeep. induction inputs as [|i rest IH]; intros s res b Hget HQ Hok.
  - simpl. eauto.
  - simpl.
    assert (Hrest : forall j, In j rest -> Id j = bid -> ok j)
      by (intros j Hj; apply Hok; right; exact Hj).
    destruct (validate (Id i) (in_Payload i) (in_SortIndex i) (in_TTL i)) as [e|] eqn:Hv.
    + unfold PutBSO. rewrite Hv. eapply IH; eauto.
    + destruct (PutBSO_valid s (Id i) _ _ _ Hv) as (s' & -> & Hsame & Hother).
      destruct (String.eqb_spec (Id i) bid) as [Heq|Hne].
      * rewrite Heq in Hsame. rewrite Hget in Hsame.
        eapply IH; [exact Hsame| |exact Hrest].
        apply Hkeep; [exact HQ|]. apply Hok; [left; reflexivity|exact Heq].
      * rewrite <- (Hother bid) in Hget by congruence.
        eapply IH; eauto.
Qed.

(** C6: for a record that exists (and has not expired), a [PutBSO] whose
    input omits the payload succeeds and leaves the stored payload as it
    was; likewise for an omitted sort index and an omitted ttl.  The same
    holds for a batch: when no input of the batch for this record carries a
    payload (a sort index), the payload (the sort index) read back after
    [PostBSOs] is the one stored before. *)
Theorem C6_absent_field_left_unchanged (s : Store) (bid : string) (b : BSO) :
  GetBSO s now cid bid = Some b ->
  (forall si ttl, validate bid None si ttl = None ->
     exists s' b', PutBSO s now cid bid None si ttl = inl (s', now)
       /\ GetBSO s' now cid bid = Some b' /\ Payload b' = Payload b)
  /\ (forall p ttl, validate bid p None ttl = None ->
     exists s' b', PutBSO s now cid bid p None ttl = inl (s', now)
       /\ GetBSO s' now cid bid = Some b' /\ SortIndex b' = SortIndex b)
  /\ (forall p si, validate bid p si None = None ->
     exists s' b', PutBSO s now cid bid p si None = inl (s', now)
       /\ GetBSO s' now cid bid = Some b' /\ TTL b' = TTL b)
  /\ (forall inputs,
        (forall i, In i inputs -> Id i = bid -> in_Payload i = None) ->
        exists b', GetBSO (fst (PostBSOs s now cid inputs)) now cid bid = Some b'
                   /\ Payload b' = Payload b)
  /\ (forall inputs,
        (forall i, In i inputs -> Id i = bid -> in_SortIndex i = None) ->
        exists b', GetBSO (fst (PostBSOs s now cid inputs)) now cid bid = Some b'
                   /\ SortIndex b' = SortIndex b).
Proof.
  intros Hget. split; [|split; [|split; [|split]]].
  - intros si ttl Hv. destruct (PutBSO_valid s bid _ _ _ Hv) as (s' & Hput & Hread & _).
    exists s'. eexists. split; [exact Hput|]. split; [exact Hread|].
    rewrite Hget. reflexivity.
  - intros p ttl Hv. destruct (PutBSO_valid s bid _ _ _ Hv) as (s' & Hput & Hread & _).
    exists s'. eexists. split; [exact Hput|]. split; [exact Hread|].
    rewrite Hget. reflexivity.
  - intros p si Hv. destruct (PutBSO_valid s bid _ _ _ Hv) as (s' & Hput & Hread & _).
    exists s'. eexists. split; [exact Hput|]. split; [exact Hread|].
    rewrite Hget. reflexivity.
  - intros inputs Hok. unfold PostBSOs.
    apply (PostBSOs_from_keeps (fun b' => Payload b' = Payload b)
             (fun i => in_Payload i = None) bid) with (b := b); auto.
    intros b0 i HQ Hi. simpl. rewrite Hi. exact HQ.
  - intros inputs Hok. unfold PostBSOs.
    apply (PostBSOs_from_keeps (fun b' => SortIndex b' = SortIndex b)
             (fun i => in_SortIndex i = None) bid) with (b := b); auto.
    intros b0 i HQ Hi. simpl. rewrite Hi. exact HQ.
Qed.

End Updates.

(** The update of the POST test that carries a sort index only: the payload
    stored by the first batch is read back. *)
Lemma C6_sortindex_only_witness :
  GetBSO stored 1100 1 "bso1"
  = Some (mkBSO "initial payload" (Some 1) 1000 (Some 210001000))
  /\ validate "bso1" None (Some (Some 2)) None = None
  /\ exists s' b',
       PutBSO stored 1100 1 "bso1" None (Some (Some 2)) None = inl (s', 1100)
       /\ GetBSO s' 1100 1 "bso1" = Some b'
       /\ Payload b' = "initial payload".
Proof.
  assert (Hget : GetBSO stored 1100 1 "bso1"
                 = Some (mkBSO "initial payload" (Some 1) 1000 (Some 210001000)))
    by (vm_compute; reflexivity).
  split; [exact Hget|]. split; [reflexivity|].
  apply (proj1 (C6_absent_field_left_unchanged 1100 1 stored "bso1" _ Hget)).
  reflexivity.
Defined.

Example post_update_keeps_payload :
  let s' := fst (PostBSOs stored 1100 1
                   [mkInput "bso1" None (Some (Some 2)) None;
                    mkInput "bso2" (Some "updated payload") None None;
                    mkInput "bso3" (Some "updated payload") (Some (Some 3)) None]) in
  (Payload <$> GetBSO s' 1100 1 "bso1", SortIndex <$> GetBSO s' 1100 1 "bso1")
  = (Some "initial payload", Some (Some 2))
  /\ (Payload <$> GetBSO s' 1100 1 "bso2", SortIndex <$> GetBSO s' 1100 1 "bso2")
     = (Some "updated payload", Some (Some 1))
  /\ (Payload <$> GetBSO s' 1100 1 "bso3", SortIndex <$> GetBSO s' 1100 1 "bso3")
     = (Some "updated payload", Some (Some 3)).
Proof. vm_compute. repeat split. Qed.

(* ===================================================================== *)
(** ** Further properties of the router *)
(* ===================================================================== *)

Import table.


Lemma match_route_leaf {W : Type} :
  forall (r : Route W) req h vars,
    match_route r req = Some (h, vars) ->
    exists tpl ms, In (tpl, ms, h) (leaves r)
      /\ path_matches tpl (Path req) = true
      /\ method_matches ms (Method req) = true
      /\ vars = path_vars tpl (Path req).
Proof.
  fix IH 1. intros [tpl ms h0 | prefix rs] req h vars; simpl.
  - destruct (path_matches tpl (Path req)) eqn:Ep; [|discriminate].
    destruct (method_matches ms (Method req)) eqn:Em; [|discriminate].
    intros [= <- <-]. exists tpl, ms. repeat split; auto.
  - destruct (prefix_matches _ _); [|discriminate].
    revert rs. fix IHrs 1. intros [|r' rs']; simpl; [discriminate|].
    destruct (match_route r' req) as [[h' vars']|] eqn:E.
    + intros [= -> ->]. destruct (IH _ _ _ _ E) as (tpl & ms & Hin & Hrest).
      exists tpl, ms. split; [apply in_or_app; left; exact Hin|exact Hrest].
    + intros Hm. destruct (IHrs _ Hm) as (tpl & ms & Hin & Hrest).
      exists tpl, ms. split; [apply in_or_app; right; exact Hin|exact Hrest].
Qed.

(** A matched request is matched by one of the registered routes, path and
    method, and carries the path variables of that route. *)
Lemma Match_leaf {W : Type} (routes : list (Route W)) req h vars :
  Match routes req = Some (h, vars) ->
  exists tpl ms, In (tpl, ms, h) (flat_map leaves routes)
    /\ path_matches tpl (Path req) = true
    /\ method_matches ms (Method req) = true
    /\ vars = path_vars tpl (Path req).
Proof.
  induction routes as [|r rest IH]; simpl; [discriminate|].
  destruct (match_route r req) as [[h' vars']|] eqn:E.
  - intros [= -> ->]. destruct (match_route_leaf _ _ _ _ E) as (tpl & ms & Hin & Hrest).
    exists tpl, ms. split; [apply in_or_app; left; exact Hin|exact Hrest].
  - intros Hm. destruct (IH Hm) as (tpl & ms & Hin & Hrest).
    exists tpl, ms. split; [apply in_or_app; right; exact Hin|exact Hrest].
Qed.

(** The value of a path variable matches the pattern of the variable. *)
Lemma segments_match_var ts segs name v :
  segments_match ts segs = true ->
  extract_vars ts segs !! name = Some v ->
  exists pat, In (SegVar name pat) ts /\ pattern_matches pat v = true.
Proof.
  revert segs. induction ts as [|t ts' IH]; intros [|seg segs']; simpl;
    try discriminate.
  intros Hm Hl. apply andb_prop in Hm as [Ht Hrest].
  destruct t as [l|n pat].
  - destruct (IH _ Hrest Hl) as (p & Hin & Hp). exists p. split; [right; exact Hin|exact Hp].
  - destruct (decide (n = name)) as [->|Hne].
    + rewrite lookup_insert_eq in Hl. injection Hl as <-.
      exists pat. split; [left; reflexivity|exact Ht].
    + rewrite lookup_insert_ne in Hl by exact Hne.
      destruct (IH _ Hrest Hl) as (p & Hin & Hp).
      exists p. split; [right; exact Hin|exact Hp].
Qed.

(** A variable of the matched template has a value. *)
Lemma segments_match_bound ts segs name pat :
  segments_match ts segs = true ->
  In (SegVar name pat) ts ->
  is_Some (extract_vars ts segs !! name).
Proof.
  revert segs. induction ts as [|t ts' IH]; intros [|seg segs']; simpl;
    try discriminate; try contradiction.
  intros Hm Hin. apply andb_prop in Hm as [Ht Hrest].
  destruct Hin as [->|Hin].
  - rewrite lookup_insert_eq. eauto.
  - destruct t as [l|n p]; [exact (IH _ Hrest Hin)|].
    destruct (decide (n = name)) as [->|Hne].
    + rewrite lookup_insert_eq. eauto.
    + rewrite lookup_insert_ne by exact Hne. exact (IH _ Hrest Hin).
Qed.

(** A template of literals matches its own path only. *)
Lemma literal_template_path lits p :
  segments_match (map SegLit lits) (split_on slash p) = true ->
  p = join_with slash lits.
Proof.
  intros H. rewrite <- (join_split slash p). f_equal.
  revert H. generalize (split_on slash p) as segs.
  induction lits as [|l lits' IH]; intros [|seg segs']; simpl; try discriminate; auto.
  intros H. apply andb_prop in H as [Hl Hrest].
  apply String.eqb_eq in Hl. subst seg. f_equal. exact (IH _ Hrest).
Qed.

Section Uid.
Context {Info Usage : Type}.
Context `{MI : json.Marshaler Info} `{MU : json.Marshaler Usage}.
Context {W : Type} `{RW : ResponseWriter W}.
Implicit Types (d : Dependencies Info Usage).

(** X4: the uid a handler of this router sees.  Whenever the router passes
    a request to a handler, either the path variables hold a "uid" that is a
    non-empty string of decimal digits (the pattern [[0-9]+] of the version
    prefix), or they hold none and the request is the heartbeat or
    [DELETE /]: these two are the only routes registered outside the
    [/1.5/{uid}/] subrouter, so [DELETE /] is the one wrapped route on which
    [makeSyncHandler] finds no uid. *)
Theorem matched_uid_is_numeric d (req : Request) (h : HandlerFunc W) vars :
  Match (NewRouter d) req = Some (h, vars) ->
  match vars !! "uid" with
  | Some uid => numeric uid = true
  | None => Path req = "/__heartbeat__" \/ (Path req = "/" /\ Method req = "DELETE")
  end.
Proof.
  intros Hm. apply Match_leaf in Hm as (tpl & ms & Hin & Hp & Hmeth & ->).
  unfold path_matches in Hp. unfold path_vars.
  destruct (extract_vars (parse_template tpl) (split_on slash (Path req)) !! "uid")
    as [uid|] eqn:Eu.
  - destruct (segments_match_var _ _ _ _ Hp Eu) as (pat & Hpat & Hv).
    assert (pat = "[0-9]+"); [|subst pat; exact Hv].
    clear -Hin Hpat. unfold NewRouter in Hin. simpl in Hin.
    repeat (destruct Hin as [Hin|Hin];
            [injection Hin as <- _ _; simpl in Hpat; intuition congruence|]).
    contradiction.
  - unfold NewRouter in Hin. simpl in Hin.
    destruct Hin as [Hin|[Hin|Hin]].
    + injection Hin as <- _ _. left.
      exact (literal_template_path [""; "__heartbeat__"] _ Hp).
    + injection Hin as <- <- _. right. split.
      * exact (literal_template_path [""; ""] _ Hp).
      * simpl in Hmeth. rewrite orb_false_r in Hmeth.
        apply String.eqb_eq in Hmeth. exact Hmeth.
    + exfalso.
      assert (Hb : is_Some (extract_vars (parse_template tpl)
                              (split_on slash (Path req)) !! "uid")).
      { apply (segments_match_bound _ _ "uid" "[0-9]+" Hp).
        clear -Hin.
        repeat (destruct Hin as [Hin|Hin];
                [injection Hin as <- _ _; simpl; tauto|]).
        contradiction. }
      rewrite Eu in Hb. destruct Hb as [? Hb]. discriminate Hb.
Qed.
End Uid.

(** The quota request of the tests: its uid is numeric. *)
Lemma matched_uid_123456_witness :
  Match (NewRouter (W:=ResponseRecorder) (failing_deps syncstorage.ErrNotFound))
    (NewRequest "GET" "/1.5/123456/info/quota")
  = Some (makeSyncHandler (failing_deps syncstorage.ErrNotFound) notImplemented,
          <["uid" := "123456"]> ∅)
  /\ numeric "123456" = true.
Proof.
  split; [reflexivity|].
  exact (matched_uid_is_numeric (W:=ResponseRecorder)
           (failing_deps syncstorage.ErrNotFound)
           (NewRequest "GET" "/1.5/123456/info/quota")
           (makeSyncHandler (failing_deps syncstorage.ErrNotFound) notImplemented)
           (<["uid" := "123456"]> ∅) eq_refl).
Defined.

Section Surface.
Context {Info Usage : Type}.
Context `{MI : json.Marshaler Info} `{MU : json.Marshaler Usage}.
Implicit Types (d : Dependencies Info Usage) (rw : ResponseRecorder).

Ltac plain_list :=
  repeat (apply Forall_cons; split; [first [assumption | reflexivity]|]);
  apply List.Forall_nil.

Ltac route_match Hsplit :=
  unfold NewRouter, Match, match_route, path_matches, prefix_matches, path_vars;
  cbn [Path Method]; rewrite Hsplit; simpl;
  repeat match goal with
         | H : pattern_matches _ _ = true |- _ => rewrite H
         end;
  rewrite ?prefix_empty.

(** X1: the heartbeat is the one route that takes every method.  It is
    registered without a method, and [handleHeartbeat] looks at neither the
    request nor the dependencies: a request for [/__heartbeat__] of any
    method, query and headers is answered by [okResponse], status 200, the
    body "OK" without a newline, and the two headers text/plain and nosniff.
    Every other route is bound to a method: a request that the router
    matches is the heartbeat, or its method is one of GET, POST, PUT and
    DELETE. *)
Theorem heartbeat_any_method d (req : Request) :
  (Path req = "/__heartbeat__" ->
   ServeHTTP (NewRouter d) NewRecorder req = ok_response "OK")
  /\ (forall (h : HandlerFunc ResponseRecorder) vars,
        Match (NewRouter d) req = Some (h, vars) ->
        Path req = "/__heartbeat__"
        \/ In (Method req) ["GET"; "POST"; "PUT"; "DELETE"]).
Proof.
  split.
  - destruct req as [m p q hdr vs]. simpl. intros ->. reflexivity.
  - intros h vars Hm.
    apply Match_leaf in Hm as (tpl & ms & Hin & Hp & Hmeth & _).
    unfold path_matches in Hp. unfold NewRouter in Hin. simpl in Hin.
    destruct Hin as [Hin|Hin].
    + injection Hin as <- _ _. left.
      exact (literal_template_path [""; "__heartbeat__"] _ Hp).
    + right. clear Hp.
      repeat (destruct Hin as [Hin|Hin];
              [injection Hin as _ <- _; simpl in Hmeth;
               rewrite orb_false_r in Hmeth; apply String.eqb_eq in Hmeth;
               rewrite Hmeth; simpl; tauto|]).
      contradiction.
Qed.

(** X2: for every numeric uid a GET of [/1.5/{uid}/echo-uid] is answered
    200 with the uid as the whole body, exactly as it stands in the path
    (leading zeros and length kept), as plain text: the uid travels from the
    path through [mux.Vars] and [makeSyncHandler] to [handleUIDecho]
    unchanged. *)
Theorem echo_uid_returns_uid d (uid q : string) (hdr vars : gmap string string) :
  numeric uid = true ->
  ServeHTTP (NewRouter d) NewRecorder
    (mkRequest "GET" ("/1.5/" +:+ uid +:+ "/echo-uid") q hdr vars)
  = ok_response uid.
Proof.
  intros Hu. pose proof (numeric_plain _ Hu) as Pu.
  change ("/1.5/" +:+ uid +:+ "/echo-uid") with (path_of ["1.5"; uid; "echo-uid"]).
  destruct (path_of_plain "1.5" [uid; "echo-uid"]) as [Hsplit Hclean]; [plain_list|].
  change (pattern_matches "[0-9]+" uid = true) in Hu.
  rewrite (served_by d _ handleUIDecho (<["uid" := uid]> ∅) uid); first reflexivity.
  - exact Hclean.
  - route_match Hsplit. reflexivity.
  - apply lookup_insert_eq.
Qed.

(** X3: the complete answer of the two info routes that are implemented.
    For every numeric uid, a GET of [/1.5/{uid}/info/collections] (and of
    [/1.5/{uid}/info/collection_usage]) calls the dispatch with that uid;
    when the call and [json.Marshal] both succeed the response is status 200
    (the implicit status of the first [Write]) with the content type
    application/json, no nosniff header, and the marshalled bytes as the body;
    when either fails it is the constant 500 "Internal Server Error"
    response of [errorResponse]. *)
Theorem info_routes_answer d (uid q : string) (hdr vars : gmap string string) :
  numeric uid = true ->
  ServeHTTP (NewRouter d) NewRecorder
    (mkRequest "GET" ("/1.5/" +:+ uid +:+ "/info/collections") q hdr vars)
  = match syncstorage.InfoCollections (Dispatch d) uid with
    | inr _ => error_response "Internal Server Error" 500
    | inl info =>
        match json.Marshal info with
        | inl js => json_response js
        | inr _ => error_response "Internal Server Error" 500
        end
    end
  /\ ServeHTTP (NewRouter d) NewRecorder
       (mkRequest "GET" ("/1.5/" +:+ uid +:+ "/info/collection_usage") q hdr vars)
     = match syncstorage.InfoCollectionUsage (Dispatch d) uid with
       | inr _ => error_response "Internal Server Error" 500
       | inl results =>
           match json.Marshal results with
           | inl js => json_response js
           | inr _ => error_response "Internal Server Error" 500
           end
       end.
Proof.
  intros Hu. split.
  - rewrite (info_collections_route d uid q hdr vars Hu).
    unfold handleInfoCollections, jsonResponse.
    destruct (syncstorage.InfoCollections (Dispatch d) uid) as [info|e]; [|reflexivity].
    destruct (json.Marshal info); reflexivity.
  - rewrite (info_collection_usage_route d uid q hdr vars Hu).
    unfold handleInfoCollectionUsage, jsonResponse.
    destruct (syncstorage.InfoCollectionUsage (Dispatch d) uid) as [res|e]; [|reflexivity].
    destruct (json.Marshal res); reflexivity.
Qed.


End Surface.

(** A PATCH of the heartbeat is answered as a GET is. *)
Lemma heartbeat_patch_witness :
  Path (NewRequest "PATCH" "/__heartbeat__") = "/__heartbeat__"
  /\ ServeHTTP (NewRouter (failing_deps syncstorage.ErrNotFound)) NewRecorder
       (NewRequest "PATCH" "/__heartbeat__")
     = ok_response "OK".
Proof.
  split; [reflexivity|].
  exact (proj1 (heartbeat_any_method (failing_deps syncstorage.ErrNotFound)
                  (NewRequest "PATCH" "/__heartbeat__")) eq_refl).
Defined.

(** The request of [TestContextEchoUID]. *)
Lemma echo_uid_123456_witness :
  numeric "123456" = true
  /\ ServeHTTP (NewRouter (failing_deps syncstorage.ErrNotFound)) NewRecorder
       (NewRequest "GET" "/1.5/123456/echo-uid")
     = ok_response "123456".
Proof.
  split; [reflexivity|].
  apply (echo_uid_returns_uid (failing_deps syncstorage.ErrNotFound)
           "123456" "" ∅ ∅). reflexivity.
Defined.

(** The two info requests against a dispatch that answers. *)
Lemma info_routes_123456_witness :
  numeric "123456" = true
  /\ ServeHTTP (NewRouter working_deps) NewRecorder
       (NewRequest "GET" "/1.5/123456/info/collections")
     = json_response "{}"
  /\ ServeHTTP (NewRouter working_deps) NewRecorder
       (NewRequest "GET" "/1.5/123456/info/collection_usage")
     = json_response "{}".
Proof.
  split; [reflexivity|].
  exact (info_routes_answer working_deps "123456" "" ∅ ∅ eq_refl).
Defined.

Lemma segments_match_compatible ts1 ts2 segs :
  segments_match ts1 segs = true -> segments_match ts2 segs = true ->
  segments_compatible ts1 ts2 = true.
Proof.
  revert ts2 segs. induction ts1 as [|t1 r1 IH]; intros [|t2 r2] [|seg segs'];
    simpl; try discriminate; auto.
  intros H1 H2. apply andb_prop in H1 as [Ht1 Hr1]. apply andb_prop in H2 as [Ht2 Hr2].
  rewrite (IH _ _ Hr1 Hr2), andb_true_r.
  destruct t1 as [a|n1 p1], t2 as [b|n2 p2]; simpl in *.
  - apply String.eqb_eq in Ht1, Ht2. subst. apply String.eqb_refl.
  - apply String.eqb_eq in Ht1. subst. exact Ht2.
  - apply String.eqb_eq in Ht2. subst. exact Ht1.
  - reflexivity.
Qed.

Lemma method_matches_compatible ms1 ms2 m :
  method_matches ms1 m = true -> method_matches ms2 m = true ->
  methods_compatible ms1 ms2 = true.
Proof.
  destruct ms1 as [|a1 r1], ms2 as [|a2 r2]; try reflexivity.
  unfold method_matches, methods_compatible. intros H1 H2.
  apply existsb_exists in H1 as (x & Hx & Ex). apply String.eqb_eq in Ex. subst x.
  apply existsb_exists. exists m. split; [exact Hx|exact H2].
Qed.

(** X8: the routes of [NewRouter] do not overlap.  Two entries of the route
    table that both match a request, path and method, are the same entry: the
    order in which [NewRouter] registers its routes does not decide which
    handler runs. *)
Theorem routes_unambiguous (req : Request) (e1 e2 : string * list string) :
  In e1 route_table -> In e2 route_table ->
  entry_matches req e1 = true -> entry_matches req e2 = true ->
  e1 = e2.
Proof.
  intros Hin1 Hin2 Hm1 Hm2.
  assert (Hc : compatible e1 e2 = true).
  { unfold entry_matches, path_matches in Hm1, Hm2.
    apply andb_prop in Hm1 as [Hp1 Hq1]. apply andb_prop in Hm2 as [Hp2 Hq2].
    unfold compatible.
    rewrite (segments_match_compatible _ _ _ Hp1 Hp2).
    exact (method_matches_compatible _ _ _ Hq1 Hq2). }
  revert Hc. unfold route_table in Hin1, Hin2. simpl in Hin1, Hin2.
  repeat (destruct Hin1 as [<-|Hin1]; [|]); try contradiction.
  all: repeat (destruct Hin2 as [<-|Hin2]; [|]); try contradiction.
  all: first [ reflexivity | vm_compute; discriminate ].
Qed.

(** The record request of the tests is matched by the GET entry of the
    record template. *)
Lemma routes_unambiguous_bso_witness :
  let req := NewRequest "GET" "/1.5/123456/storage/bookmarks/test" in
  let e := ("/1.5/{uid:[0-9]+}/storage/{collection}/{bsoId}", ["GET"]) in
  In e route_table /\ entry_matches req e = true /\ e = e.
Proof.
  assert (Hin : In ("/1.5/{uid:[0-9]+}/storage/{collection}/{bsoId}", ["GET"])
                  route_table).
  { unfold route_table. simpl. do 11 right. left. reflexivity. }
  split; [exact Hin|]. split; [reflexivity|].
  apply (routes_unambiguous (NewRequest "GET" "/1.5/123456/storage/bookmarks/test")
           _ _ Hin Hin); reflexivity.
Defined.

(** *** Responses that have started *)

Lemma append_nil_r s : s +:+ "" = s.
Proof.
  induction s as [|c r IH]; [reflexivity|].
  change (String c (r +:+ "") = String c r). f_equal. exact IH.
Qed.

Lemma append_assoc a b c : (a +:+ b) +:+ c = a +:+ (b +:+ c).
Proof.
  induction a as [|x r IH]; [reflexivity|].
  change (String x ((r +:+ b) +:+ c) = String x (r +:+ (b +:+ c))). f_equal. exact IH.
Qed.

Lemma continues_refl rw : wroteHeader rw = true -> continues rw rw.
Proof.
  intros H. repeat split; [exact H|]. exists "". symmetry. apply append_nil_r.
Qed.

Lemma continues_trans rw1 rw2 rw3 :
  continues rw1 rw2 -> continues rw2 rw3 -> continues rw1 rw3.
Proof.
  intros (W1 & C1 & S1 & s1 & B1) (W2 & C2 & S2 & s2 & B2).
  repeat split; [exact W2|congruence|congruence|].
  exists (s1 +:+ s2). rewrite B2, B1. apply append_assoc.
Qed.

Lemma continues_HeaderSet k v rw :
  wroteHeader rw = true -> continues rw (rec_HeaderSet k v rw).
Proof.
  intros H. repeat split; [exact H|]. exists "". simpl. symmetry. apply append_nil_r.
Qed.

Lemma continues_WriteHeader code rw :
  wroteHeader rw = true -> continues rw (rec_WriteHeader code rw).
Proof.
  intros H. unfold rec_WriteHeader. rewrite H. apply continues_refl, H.
Qed.

Lemma continues_Write s rw :
  wroteHeader rw = true -> continues rw (rec_Write s rw).
Proof.
  intros H. unfold rec_Write, rec_WriteHeader. rewrite H. simpl.
  repeat split; [exact H|]. exists s. reflexivity.
Qed.

Ltac continue_with l :=
  eapply continues_trans; [apply l; assumption|].

Lemma continues_Error rw msg code :
  wroteHeader rw = true -> continues rw (Error rw msg code).
Proof.
  intros H. unfold Error, Fprintln. simpl.
  assert (H1 := continues_HeaderSet "Content-Type" "text/plain; charset=utf-8" rw H).
  eapply continues_trans; [exact H1|]. destruct H1 as [W1 _].
  assert (H2 := continues_HeaderSet "X-Content-Type-Options" "nosniff" _ W1).
  eapply continues_trans; [exact H2|]. destruct H2 as [W2 _].
  assert (H3 := continues_WriteHeader code _ W2).
  eapply continues_trans; [exact H3|]. destruct H3 as [W3 _].
  apply continues_Write, W3.
Qed.

Lemma continues_okResponse rw s :
  wroteHeader rw = true -> continues rw (okResponse rw s).
Proof.
  intros H. unfold okResponse, Fprint. simpl.
  assert (H1 := continues_HeaderSet "Content-Type" "text/plain; charset=utf-8" rw H).
  eapply continues_trans; [exact H1|]. destruct H1 as [W1 _].
  assert (H2 := continues_HeaderSet "X-Content-Type-Options" "nosniff" _ W1).
  eapply continues_trans; [exact H2|]. destruct H2 as [W2 _].
  assert (H3 := continues_WriteHeader StatusOK _ W2).
  eapply continues_trans; [exact H3|]. destruct H3 as [W3 _].
  apply continues_Write, W3.
Qed.

Section Started.
Context {Info Usage : Type}.
Context `{MI : json.Marshaler Info} `{MU : json.Marshaler Usage}.
Implicit Types (d : Dependencies Info Usage) (rw : ResponseRecorder).

Lemma continues_jsonResponse {V : Type} `{json.Marshaler V} rw r d (val : V) :
  wroteHeader rw = true -> continues rw (jsonResponse rw r d val).
Proof.
  intros Hw. unfold jsonResponse, errorResponse.
  destruct (json.Marshal val).
  - simpl.
    assert (H1 := continues_HeaderSet "Content-Type" "application/json" rw Hw).
    eapply continues_trans; [exact H1|]. destruct H1 as [W1 _].
    apply continues_Write, W1.
  - apply continues_Error, Hw.
Qed.

Lemma late_makeSyncHandler d (h : syncHandler) :
  (forall rw r uid, wroteHeader rw = true -> continues rw (h rw r d uid)) ->
  late (makeSyncHandler d h).
Proof.
  intros Hh rw r Hw. unfold makeSyncHandler.
  destruct (Vars r !! "uid"); [apply Hh, Hw|].
  assert (H1 := continues_Error rw "UID missing" StatusBadRequest Hw).
  eapply continues_trans; [exact H1|]. destruct H1 as [W1 _]. apply Hh, W1.
Qed.

Lemma late_NewRouter d : Forall late (flat_map handlers_of (NewRouter d)).
Proof.
  unfold NewRouter; simpl.
  repeat (apply Forall_cons; split);
    try (apply late_makeSyncHandler; intros rw r uid Hw);
    try (intros rw r Hw).
  all: unfold notImplemented, handleHeartbeat, handleUIDecho,
         handleInfoCollections, handleInfoCollectionUsage, errorResponse.
  all: repeat match goal with
         | |- context [match ?x with inl _ => _ | inr _ => _ end] => destruct x
         end.
  all: first [ apply List.Forall_nil | apply continues_Error, Hw
             | apply continues_okResponse, Hw | apply continues_jsonResponse, Hw ].
Qed.

(** X11: a response that has started is only continued.  When the status
    line of the writer is already out, the router and its handlers leave the
    status and the headers that were sent as they are and only append to the
    body; this is why the handler that runs after "UID missing" cannot
    replace the 400. *)
Theorem started_response_is_continued d rw (req : Request) :
  wroteHeader rw = true -> continues rw (ServeHTTP (NewRouter d) rw req).
Proof.
  intros Hw. unfold ServeHTTP.
  destruct (negb _).
  - simpl.
    assert (H1 := continues_HeaderSet "Location"
                    (if String.eqb (RawQuery req) "" then cleanPath (Path req)
                     else cleanPath (Path req) +:+ "?" +:+ RawQuery req) rw Hw).
    eapply continues_trans; [exact H1|]. destruct H1 as [W1 _].
    apply continues_WriteHeader, W1.
  - destruct (Match (NewRouter d) req) as [[h vars]|] eqn:E.
    + apply Match_handler in E.
      pose proof (late_NewRouter d) as Hq. rewrite Forall_forall in Hq.
      apply (Hq h); [apply list_elem_of_In; exact E|exact Hw].
    + apply continues_Error, Hw.
Qed.

(** X10: the whole response when the uid is missing.  For each handler of
    [api.go] that [makeSyncHandler] wraps, a request without a "uid" on a
    fresh recorder ends with status 400, the plain-text content type of
    [http.Error], and a body that is "UID missing", a newline, and then
    whatever body the handler writes when it is run alone with the empty
    uid. *)
Theorem missing_uid_response d (h : syncHandler) (r : Request) :
  In h wrapped_handlers ->
  Vars r !! "uid" = None ->
  let rw := makeSyncHandler d h NewRecorder r in
  Code rw = 400
  /\ ResultHeader rw !! "Content-Type" = Some "text/plain; charset=utf-8"
  /\ Body rw = "UID missing" +:+ newline +:+ Body (h NewRecorder r d "").
Proof.
  intros Hin Huid. cbv zeta. unfold makeSyncHandler. rewrite Huid.
  unfold wrapped_handlers in Hin. simpl in Hin.
  destruct Hin as [<-|[<-|[<-|[<-|[]]]]].
  all: unfold notImplemented, handleUIDecho, handleInfoCollections,
         handleInfoCollectionUsage, jsonResponse, errorResponse.
  all: repeat case_match.
  all: repeat split; reflexivity.
Qed.

End Started.

(** The heartbeat served into a writer that already holds the 400 of
    "UID missing". *)
Lemma started_400_witness :
  wroteHeader (error_response "UID missing" 400) = true
  /\ continues (error_response "UID missing" 400)
       (ServeHTTP (NewRouter (failing_deps syncstorage.ErrNotFound))
          (error_response "UID missing" 400) (NewRequest "GET" "/__heartbeat__")).
Proof.
  split; [reflexivity|].
  apply (started_response_is_continued (failing_deps syncstorage.ErrNotFound)
           (error_response "UID missing" 400) (NewRequest "GET" "/__heartbeat__")).
  reflexivity.
Defined.

(** [DELETE /], the route without a uid: the 400 stays and the body of
    [notImplemented] follows the first. *)
Lemma missing_uid_delete_root_witness :
  Vars (NewRequest "DELETE" "/") !! "uid" = None
  /\ Code (makeSyncHandler (failing_deps syncstorage.ErrNotFound) notImplemented
             NewRecorder (NewRequest "DELETE" "/")) = 400
  /\ Body (makeSyncHandler (failing_deps syncstorage.ErrNotFound) notImplemented
             NewRecorder (NewRequest "DELETE" "/"))
     = "UID missing" +:+ newline +:+ "Not implemented" +:+ newline.
Proof.
  split; [reflexivity|].
  pose proof (missing_uid_response (failing_deps syncstorage.ErrNotFound)
                notImplemented (NewRequest "DELETE" "/")
                (or_introl eq_refl) eq_refl) as H.
  split; [exact (proj1 H) | exact (proj2 (proj2 H))].
Defined.

Section Slash.
Context {Info Usage : Type}.
Context `{MI : json.Marshaler Info} `{MU : json.Marshaler Usage}.
Implicit Types (d : Dependencies Info Usage) (rw : ResponseRecorder).

Ltac plain_list :=
  repeat (apply Forall_cons; split; [first [assumption | reflexivity]|]);
  apply List.Forall_nil.

Ltac route_match Hsplit :=
  unfold NewRouter, Match, match_route, path_matches, prefix_matches, path_vars;
  cbn [Path Method]; rewrite Hsplit; simpl;
  repeat match goal with
         | H : pattern_matches _ _ = true |- _ => rewrite H
         end;
  rewrite ?prefix_empty.

Lemma not_found_response d (req : Request) :
  cleanPath (Path req) = Path req ->
  Match (NewRouter (W:=ResponseRecorder) d) req = None ->
  ServeHTTP (NewRouter d) NewRecorder req = error_response "404 page not found" 404.
Proof.
  intros Hclean Hm. unfold ServeHTTP. rewrite Hclean, String.eqb_refl, Hm. reflexivity.
Qed.

Lemma cleanPath_rooted rest l np :
  last_char (String slash rest) = Some l ->
  path_Clean (String slash rest) = np ->
  (if Ascii.eqb l slash && negb (String.eqb np "/") then np +:+ "/" else np)
  = String slash rest ->
  cleanPath (String slash rest) = String slash rest.
Proof.
  intros Hlast Hclean Hres. unfold cleanPath.
  change (Ascii.eqb slash slash) with true. cbv iota zeta.
  rewrite Hlast, Hclean. exact Hres.
Qed.

(** The path of the storage root, with its trailing slash. *)
Lemma storage_root_path uid :
  numeric uid = true ->
  split_on slash ("/1.5/" +:+ uid +:+ "/storage/") = [""; "1.5"; uid; "storage"; ""]
  /\ cleanPath ("/1.5/" +:+ uid +:+ "/storage/") = "/1.5/" +:+ uid +:+ "/storage/".
Proof.
  intros Hu. pose proof (numeric_plain _ Hu) as Pu.
  destruct (plain_facts _ Pu) as (Hn & Hs & E1 & E2 & E3).
  assert (Hsplit : split_on slash ("/1.5/" +:+ uid +:+ "/storage/")
                   = [""; "1.5"; uid; "storage"; ""]).
  { change ("/1.5/" +:+ uid +:+ "/storage/")
      with ("" +:+ String slash ("1.5" +:+ String slash (uid +:+ String slash "storage/"))).
    rewrite !(split_on_app slash) by (assumption || reflexivity). reflexivity. }
  split; [exact Hsplit|].
  apply (cleanPath_rooted ("1.5/" +:+ uid +:+ "/storage/") slash
           ("/1.5/" +:+ (uid +:+ "/storage"))).
  - change (String slash ("1.5/" +:+ uid +:+ "/storage/"))
      with ("/1.5/" +:+ (uid +:+ "/storage/")).
    rewrite last_char_app by (destruct uid; reflexivity).
    rewrite last_char_app by reflexivity. reflexivity.
  - unfold path_Clean.
    change (String slash ("1.5/" +:+ uid +:+ "/storage/"))
      with ("/1.5/" +:+ uid +:+ "/storage/").
    rewrite Hsplit. simpl. rewrite E1, E2, E3. reflexivity.
  - change (Ascii.eqb slash slash && negb (String.eqb ("/1.5/" +:+ (uid +:+ "/storage")) "/"))
      with true. cbv iota.
    rewrite append_assoc, append_assoc. reflexivity.
Qed.

(** X9: the storage root is registered with its trailing slash only.  For
    every numeric uid, [DELETE /1.5/{uid}/storage/] reaches [notImplemented]
    (501), while [/1.5/{uid}/storage] and [/1.5/{uid}] are answered
    404 "404 page not found" for every method: the path prefixes end in a
    slash, and no route is registered for the bare prefix. *)
Theorem storage_root_needs_slash d (m uid q : string) (hdr vars : gmap string string) :
  numeric uid = true ->
  ServeHTTP (NewRouter d) NewRecorder
    (mkRequest "DELETE" ("/1.5/" +:+ uid +:+ "/storage/") q hdr vars)
  = error_response "Not implemented" 501
  /\ ServeHTTP (NewRouter d) NewRecorder
       (mkRequest m ("/1.5/" +:+ uid +:+ "/storage") q hdr vars)
     = error_response "404 page not found" 404
  /\ ServeHTTP (NewRouter d) NewRecorder (mkRequest m ("/1.5/" +:+ uid) q hdr vars)
     = error_response "404 page not found" 404.
Proof.
  intros Hu. pose proof (numeric_plain _ Hu) as Pu.
  assert (Hpat : pattern_matches "[0-9]+" uid = true) by exact Hu.
  split; [|split].
  - destruct (storage_root_path uid Hu) as [Hsplit Hclean].
    rewrite (served_by d _ notImplemented (<["uid" := uid]> ∅) uid); first reflexivity.
    + exact Hclean.
    + route_match Hsplit. reflexivity.
    + apply lookup_insert_eq.
  - change ("/1.5/" +:+ uid +:+ "/storage") with (path_of ["1.5"; uid; "storage"]).
    destruct (path_of_plain "1.5" [uid; "storage"]) as [Hsplit Hclean]; [plain_list|].
    apply not_found_response; [exact Hclean|].
    route_match Hsplit. reflexivity.
  - change ("/1.5/" +:+ uid) with (path_of ["1.5"; uid]).
    destruct (path_of_plain "1.5" [uid]) as [Hsplit Hclean]; [plain_list|].
    apply not_found_response; [exact Hclean|].
    route_match Hsplit. reflexivity.
Qed.

End Slash.

(** The storage root of user 123456, with and without the slash. *)
Lemma storage_root_123456_witness :
  numeric "123456" = true
  /\ ServeHTTP (NewRouter (failing_deps syncstorage.ErrNotFound)) NewRecorder
       (NewRequest "DELETE" "/1.5/123456/storage/")
     = error_response "Not implemented" 501
  /\ ServeHTTP (NewRouter (failing_deps syncstorage.ErrNotFound)) NewRecorder
       (NewRequest "DELETE" "/1.5/123456/storage")
     = error_response "404 page not found" 404
  /\ ServeHTTP (NewRouter (failing_deps syncstorage.ErrNotFound)) NewRecorder
       (NewRequest "DELETE" "/1.5/123456")
     = error_response "404 page not found" 404.
Proof.
  split; [reflexivity|].
  apply (storage_root_needs_slash (failing_deps syncstorage.ErrNotFound)
           "DELETE" "123456" "" ∅ ∅). reflexivity.
Defined.

Import main.

(** X12: the cache size [main] computes.  Whatever [config.MaxOpenFiles]
    is, negative or huge, the cache size of a pool is between 0 and 8191, the
    8 pools together hold at most 65535 files, and the size depends on the
    low 16 bits of the setting only: adding 65536 open files changes
    nothing. *)
Theorem cacheSize_bounds (cfg : config) :
  0 <= cacheSize cfg <= 8191
  /\ 8 * cacheSize cfg <= 65535
  /\ cacheSize cfg = cacheSize {| MaxOpenFiles := MaxOpenFiles cfg + 65536;
                                  DataDir := DataDir cfg; Port := Port cfg |}.
Proof.
  unfold cacheSize, uint16, numPools, uint16. simpl MaxOpenFiles.
  change (8 mod 65536) with 8.
  pose proof (Z.mod_pos_bound (MaxOpenFiles cfg) 65536 ltac:(lia)) as Hb.
  assert (Hq : 0 <= MaxOpenFiles cfg mod 65536 / 8 <= 8191).
  { split; [apply Z.div_pos; lia|].
    assert (MaxOpenFiles cfg mod 65536 / 8 < 8192)
      by (apply Z.div_lt_upper_bound; lia). lia. }
  split; [exact Hq|]. split.
  - pose proof (Z.mul_div_le (MaxOpenFiles cfg mod 65536) 8 ltac:(lia)). lia.
  - replace (MaxOpenFiles cfg + 65536) with (MaxOpenFiles cfg + 1 * 65536) by lia.
    rewrite Z.mod_add by lia. reflexivity.
Qed.

(** X13: while the configured number fits 16 bits, [main] splits it evenly.
    For [0 <= MaxOpenFiles < 65536] the cache size of a pool is the integer
    quotient by 8, the 8 pools together stay within the configured number
    and waste fewer than 8 files, and the cache size is 0 exactly when fewer
    than 8 open files are configured. *)
Theorem cacheSize_even_split (cfg : config) :
  0 <= MaxOpenFiles cfg < 65536 ->
  cacheSize cfg = MaxOpenFiles cfg / 8
  /\ 8 * cacheSize cfg <= MaxOpenFiles cfg < 8 * cacheSize cfg + 8
  /\ (cacheSize cfg = 0 <-> MaxOpenFiles cfg < 8).
Proof.
  intros H. destruct (cacheSize_in_range cfg H) as [E B].
  split; [exact E|]. split; [exact B|]. lia.
Qed.

(** 1024 open files: 128 for each of the 8 pools. *)
Lemma cacheSize_1024_witness :
  let cfg := {| MaxOpenFiles := 1024; DataDir := "/data"; Port := 8000 |} in
  0 <= MaxOpenFiles cfg < 65536 /\ cacheSize cfg = 128.
Proof.
  split; [simpl; lia|].
  exact (proj1 (cacheSize_even_split
                  {| MaxOpenFiles := 1024; DataDir := "/data"; Port := 8000 |}
                  ltac:(simpl; lia))).
Defined.

(** *** What the router reads of a request *)



Section Reads.
Context {Info Usage : Type}.
Context `{MI : json.Marshaler Info} `{MU : json.Marshaler Usage}.
Implicit Types (d : Dependencies Info Usage) (rw : ResponseRecorder).



(** X6: the headers of a response.  A header the recorder holds after a
    request is one of [Content-Type], [X-Content-Type-Options] and
    [Location]; the router and its handlers set no other header. *)
Theorem response_headers_are_known d (req : Request) (k : string) :
  is_Some (ResultHeader (ServeHTTP (NewRouter d) NewRecorder req) !! k) ->
  In k written_headers.
Proof.
  intros [v Hv].
  destruct (in_dec string_dec k written_headers) as [Hin|Hout]; [exact Hin|].
  destruct (foreign_header_absent k d req Hout) as [Hr _].
  rewrite Hr in Hv. discriminate Hv.
Qed.

End Reads.


(** The content type of the heartbeat response. *)
Lemma response_headers_heartbeat_witness :
  ResultHeader (ServeHTTP (NewRouter (failing_deps syncstorage.ErrNotFound)) NewRecorder
                  (NewRequest "GET" "/__heartbeat__")) !! "Content-Type"
  = Some "text/plain; charset=utf-8"
  /\ In "Content-Type" written_headers.
Proof.
  split; [reflexivity|].
  apply (response_headers_are_known (failing_deps syncstorage.ErrNotFound)
           (NewRequest "GET" "/__heartbeat__") "Content-Type").
  exists "text/plain; charset=utf-8". reflexivity.
Defined.
